(** * Risk-trajectory engine: rolling window, classifier, outcome inference

    A shallow embedding of the two copies of the risk engine,
    [src/risk_engine.py] (module [Engine], used by the Streamlit app) and
    [src/backend-python/app/risk_engine.py] (module [Backend], used by the
    FastAPI service), together with the properties stated about them.

    Numbers.  A Python [float] is an IEEE 754 binary64 value, and so is a
    primitive [float] here: sums, differences, quotients and comparisons are
    the machine operations, with their rounding, their NaN and their two
    zeros.  The integer literals of the source ([140], [25], [-2]) only ever
    meet floats, where the interpreter converts them exactly; they are
    written as the floats they become.

    Dictionaries.  The vitals and rates dictionaries are read at fixed keys
    only, which every caller provides; they are records with one field per
    key, and a key passed as an argument is a value of [VitalKey]. *)

From Stdlib Require Import Floats ZArith List String Ascii Bool Lia.
From Stdlib Require Import DecimalString.
Import ListNotations.

Set Warnings "-inexact-float".

Open Scope float_scope.

(** ** Python comparisons, [max], [min] and truth value of floats *)

Definition py_le (a b : float) : bool := PrimFloat.leb a b.
Definition py_ge (a b : float) : bool := PrimFloat.leb b a.
Definition py_lt (a b : float) : bool := PrimFloat.ltb a b.
Definition py_gt (a b : float) : bool := PrimFloat.ltb b a.

(** [max(a, b)] keeps its first argument unless the second compares
    strictly greater; [min(a, b)] keeps it unless the second compares
    strictly smaller. *)
Definition py_max (a b : float) : float := if py_gt b a then b else a.
Definition py_min (a b : float) : float := if py_lt b a then b else a.

(** [bool(x)]: a float is falsy exactly when it equals zero. *)
Definition truthy (x : float) : bool := negb (PrimFloat.eqb x 0).

(** ** Format specifications [:.0f] and [:.1f]

    The interpreter prints the decimal expansion of the exact binary value,
    rounded to the requested number of places, ties to even. *)

(** Nearest integer of [n / d] for [0 <= n], [0 < d], ties to the even one. *)
Definition round_half_even (n d : Z) : Z :=
  let q := (n / d)%Z in
  let r := (n mod d)%Z in
  match (2 * r ?= d)%Z with
  | Lt => q
  | Gt => (q + 1)%Z
  | Eq => if Z.even q then q else (q + 1)%Z
  end.

(** Numerator and denominator of the magnitude [m * 2^e]. *)
Definition magnitude (m : positive) (e : Z) : Z * Z :=
  if (0 <=? e)%Z then ((Zpos m * 2 ^ e)%Z, 1%Z) else (Zpos m, (2 ^ (- e))%Z).

Definition digits (n : Z) : string :=
  NilZero.string_of_uint (N.to_uint (Z.to_N n)).

Definition sign_str (s : bool) : string :=
  if s then "-"%string else ""%string.

(** [f"{x:.0f}"] *)
Definition fmt0 (x : float) : string :=
  match Prim2SF x with
  | S754_nan => "nan"
  | S754_infinity s => sign_str s ++ "inf"
  | S754_zero s => sign_str s ++ "0"
  | S754_finite s m e =>
      let '(n, d) := magnitude m e in
      sign_str s ++ digits (round_half_even n d)
  end%string.

(** [f"{x:.1f}"] *)
Definition fmt1 (x : float) : string :=
  match Prim2SF x with
  | S754_nan => "nan"
  | S754_infinity s => sign_str s ++ "inf"
  | S754_zero s => sign_str s ++ "0.0"
  | S754_finite s m e =>
      let '(n, d) := magnitude m e in
      let t := round_half_even (10 * n) d in
      sign_str s ++ digits (t / 10) ++ "." ++ digits (t mod 10)
  end%string.

(** ** Data model *)

(** The vitals dictionary: the five keys every sample carries. *)
Record Vitals := mkVitals {
  heart_rate : float;
  bp_systolic : float;
  bp_diastolic : float;
  oxygen_saturation : float;
  temperature : float
}.

(** The keys by which a vitals dictionary is indexed. *)
Inductive VitalKey :=
| k_heart_rate
| k_bp_systolic
| k_bp_diastolic
| k_oxygen_saturation
| k_temperature.

Definition vget (v : Vitals) (key : VitalKey) : float :=
  match key with
  | k_heart_rate => heart_rate v
  | k_bp_systolic => bp_systolic v
  | k_bp_diastolic => bp_diastolic v
  | k_oxygen_saturation => oxygen_saturation v
  | k_temperature => temperature v
  end.

(** The rates dictionary built by [rates_per_min]. *)
Record Rates := mkRates {
  r_heart_rate : float;
  r_bp_systolic : float;
  r_oxygen_saturation : float;
  r_temperature : float
}.

Record Thresholds := mkThresholds {
  hr_red : float;
  spo2_red : float;
  sys_red : float;
  dia_red : float;
  temp_red_hi : float;
  temp_red_lo : float;
  hr_yellow : float;
  spo2_yellow : float;
  sys_yellow : float;
  dia_yellow : float;
  temp_yellow_hi : float;
  temp_yellow_lo : float
}.

(** ** Threshold profile resolver (the same text in both files) *)

Definition patient_thresholds (profile : string) : Thresholds :=
  if String.eqb profile "athlete" then
    {| hr_red := 140; spo2_red := 92; sys_red := 170; dia_red := 110;
       temp_red_hi := 39; temp_red_lo := 35;
       hr_yellow := 105; spo2_yellow := 95; sys_yellow := 145; dia_yellow := 95;
       temp_yellow_hi := 38; temp_yellow_lo := 36 |}
  else if String.eqb profile "hypertensive" then
    {| hr_red := 150; spo2_red := 92; sys_red := 180; dia_red := 120;
       temp_red_hi := 39; temp_red_lo := 35;
       hr_yellow := 110; spo2_yellow := 95; sys_yellow := 155; dia_yellow := 100;
       temp_yellow_hi := 38; temp_yellow_lo := 36 |}
  else if String.eqb profile "critical" then
    {| hr_red := 135; spo2_red := 90; sys_red := 165; dia_red := 105;
       temp_red_hi := 39; temp_red_lo := 35;
       hr_yellow := 105; spo2_yellow := 94; sys_yellow := 145; dia_yellow := 95;
       temp_yellow_hi := 38; temp_yellow_lo := 36 |}
  else
    {| hr_red := 150; spo2_red := 92; sys_red := 170; dia_red := 110;
       temp_red_hi := 39; temp_red_lo := 35;
       hr_yellow := 110; spo2_yellow := 95; sys_yellow := 150; dia_yellow := 95;
       temp_yellow_hi := 38; temp_yellow_lo := 36 |}.

(** ** Rolling window *)

(** One buffered entry: [(t_epoch, vitals)]. *)
Definition Entry : Type := (float * Vitals)%type.

(** [deque(maxlen=n).append(x)]: the item is added on the right and, when
    the length then exceeds [maxlen], one item is dropped from the left. *)
Definition deque_append {A : Type} (maxlen : nat) (d : list A) (x : A) : list A :=
  let d' := d ++ [x] in
  if (maxlen <? List.length d')%nat then tl d' else d'.

Record RollingWindow := mkWindow {
  maxlen : nat;
  data : list Entry
}.

(** The [for t_i, v_i in self.data: if ...: ...; break] loop: the reference
    stays at its initial value unless some entry is old enough, and the
    first such entry replaces it. *)
Fixpoint scan_ref (t_now seconds : float) (l : list Entry) (ref : Entry) : Entry :=
  match l with
  | [] => ref
  | (t_i, v_i) :: rest =>
      if py_ge (t_now - t_i) seconds then (t_i, v_i)
      else scan_ref t_now seconds rest ref
  end.

(** The body shared by [RollingWindow._rate_per_min] ([Engine]) and
    [RollingWindow._rate] ([Backend]); [dflt] is only there to make the
    reads of [self.data[-1]] and [self.data[0]] total, it is never used
    once the length test has passed. *)
Definition rate_body (d : list Entry) (key : VitalKey) (seconds : float) : float :=
  if (List.length d <? 2)%nat then 0
  else
    let dflt : Entry := (0, mkVitals 0 0 0 0 0) in
    let '(t_now, v_now) := last d dflt in
    let '(t_ref, v_ref) := scan_ref t_now seconds d (hd dflt d) in
    let dt := py_max 1e-6 (t_now - t_ref) in
    (vget v_now key - vget v_ref key) / dt * 60.

(** [l.append(x)] *)
Definition append {A : Type} (l : list A) (x : A) : list A := l ++ [x].

(** ** Classifier state and reason strings *)

(** The four locals that [classify_level] updates while it runs its checks. *)
Record Tally := mkTally {
  reasons : list string;
  score : float;
  red_hits : nat;
  warn_hits : nat
}.

(** [red_hits += 1; score += pts; reasons.append(msg)] *)
Definition red_hit (pts : float) (msg : string) (s : Tally) : Tally :=
  {| reasons := append (reasons s) msg; score := score s + pts;
     red_hits := S (red_hits s); warn_hits := warn_hits s |}.

(** [score += pts; reasons.append(msg)] *)
Definition boost (pts : float) (msg : string) (s : Tally) : Tally :=
  {| reasons := append (reasons s) msg; score := score s + pts;
     red_hits := red_hits s; warn_hits := warn_hits s |}.

(** [warn_hits += 1; score += pts; reasons.append(msg)] *)
Definition warn_hit (pts : float) (msg : string) (s : Tally) : Tally :=
  {| reasons := append (reasons s) msg; score := score s + pts;
     red_hits := red_hits s; warn_hits := S (warn_hits s) |}.

(** [x in reasons] on a list of strings. *)
Definition str_in (x : string) (l : list string) : bool :=
  existsb (String.eqb x) l.

(** [warn_hits += 1; if seen not in reasons: reasons.append(msg); score += pts] *)
Definition warn_hit_unless (seen : string) (pts : float) (msg : string) (s : Tally) : Tally :=
  {| reasons := if str_in seen (reasons s) then reasons s else append (reasons s) msg;
     score := score s + pts;
     red_hits := red_hits s; warn_hits := S (warn_hits s) |}.

(** An [if c: ...] statement with no [else]. *)
Definition when (c : bool) (f : Tally -> Tally) (s : Tally) : Tally :=
  if c then f s else s.

Section Messages.
Variables (v : Vitals) (th : Thresholds) (rates : Rates).
Local Open Scope string_scope.

(** [f"HR {v['heart_rate']:.0f} >= {th.hr_red:.0f}"] *)
Definition msg_hr_red : string :=
  "HR " ++ fmt0 (heart_rate v) ++ " >= " ++ fmt0 (hr_red th).

(** [f"SpO2 {v['oxygen_saturation']:.0f}% <= {th.spo2_red:.0f}%"] *)
Definition msg_spo2_red : string :=
  "SpO2 " ++ fmt0 (oxygen_saturation v) ++ "% <= " ++ fmt0 (spo2_red th) ++ "%".

(** [f"BP {v['bp_systolic']:.0f}/{v['bp_diastolic']:.0f} >= {th.sys_red:.0f}/{th.dia_red:.0f}"] *)
Definition msg_bp_red : string :=
  "BP " ++ fmt0 (bp_systolic v) ++ "/" ++ fmt0 (bp_diastolic v)
        ++ " >= " ++ fmt0 (sys_red th) ++ "/" ++ fmt0 (dia_red th).

(** [f"Temp {v['temperature']:.1f} outside [{th.temp_red_lo:.1f},{th.temp_red_hi:.1f}]"] *)
Definition msg_temp_red : string :=
  "Temp " ++ fmt1 (temperature v) ++ " outside [" ++ fmt1 (temp_red_lo th)
          ++ "," ++ fmt1 (temp_red_hi th) ++ "]".

(** [f"HR rising fast (+{rates['heart_rate']:.1f}/min)"] *)
Definition msg_hr_rising : string :=
  "HR rising fast (+" ++ fmt1 (r_heart_rate rates) ++ "/min)".

(** [f"SpO2 dropping (-{abs(rates['oxygen_saturation']):.1f}/min)"] *)
Definition msg_spo2_dropping : string :=
  "SpO2 dropping (-" ++ fmt1 (PrimFloat.abs (r_oxygen_saturation rates)) ++ "/min)".

(** [f"Systolic rising (+{rates['bp_systolic']:.1f}/min)"] *)
Definition msg_sys_rising : string :=
  "Systolic rising (+" ++ fmt1 (r_bp_systolic rates) ++ "/min)".

(** [f"HR {v['heart_rate']:.0f} >= {th.hr_yellow:.0f} (warning)"] *)
Definition msg_hr_yellow : string :=
  "HR " ++ fmt0 (heart_rate v) ++ " >= " ++ fmt0 (hr_yellow th) ++ " (warning)".

(** [f"SpO2 {v['oxygen_saturation']:.0f}% <= {th.spo2_yellow:.0f}% (warning)"] *)
Definition msg_spo2_yellow : string :=
  "SpO2 " ++ fmt0 (oxygen_saturation v) ++ "% <= " ++ fmt0 (spo2_yellow th)
          ++ "% (warning)".

(** [f"BP {v['bp_systolic']:.0f}/{v['bp_diastolic']:.0f} elevated (warning)"] *)
Definition msg_bp_yellow : string :=
  "BP " ++ fmt0 (bp_systolic v) ++ "/" ++ fmt0 (bp_diastolic v)
        ++ " elevated (warning)".

(** [f"Temp {v['temperature']:.1f} abnormal (warning)"] *)
Definition msg_temp_yellow : string :=
  "Temp " ++ fmt1 (temperature v) ++ " abnormal (warning)".

(** The conditions of the eleven checks, in source order. *)
Definition c_hr_red : bool := py_ge (heart_rate v) (hr_red th).
Definition c_spo2_red : bool := py_le (oxygen_saturation v) (spo2_red th).
Definition c_bp_red : bool :=
  py_ge (bp_systolic v) (sys_red th) || py_ge (bp_diastolic v) (dia_red th).
Definition c_temp_red : bool :=
  py_ge (temperature v) (temp_red_hi th) || py_le (temperature v) (temp_red_lo th).
Definition c_hr_rising : bool := py_ge (r_heart_rate rates) 15.
Definition c_spo2_dropping : bool := py_le (r_oxygen_saturation rates) (-2).
Definition c_sys_rising : bool := py_ge (r_bp_systolic rates) 10.
Definition c_hr_yellow : bool := py_ge (heart_rate v) (hr_yellow th).
Definition c_spo2_yellow : bool := py_le (oxygen_saturation v) (spo2_yellow th).
Definition c_bp_yellow : bool :=
  py_ge (bp_systolic v) (sys_yellow th) || py_ge (bp_diastolic v) (dia_yellow th).
Definition c_temp_yellow : bool :=
  py_ge (temperature v) (temp_yellow_hi th) || py_le (temperature v) (temp_yellow_lo th).
End Messages.

(** [score = max(0.0, min(100.0, score))] *)
Definition clamp (x : float) : float := py_max 0 (py_min 100 x).

(** The four [return] statements that close [classify_level]. *)
Definition decide_level (s : Tally) : string * list string * float :=
  let score := clamp (score s) in
  if (1 <=? red_hits s)%nat && py_ge score 55 then
    ("red"%string, reasons s, score)
  else if (1 <=? red_hits s)%nat || py_ge score 45 || (2 <=? warn_hits s)%nat then
    ("orange"%string, reasons s, score)
  else if (1 <=? warn_hits s)%nat || py_ge score 20 then
    ("yellow"%string, reasons s, score)
  else
    ("green"%string, reasons s, score).

(** The tests of the four pattern rules of [infer_outcomes]. *)
Definition rule_cardiac (v : Vitals) : bool :=
  py_ge (heart_rate v) 130
  && (py_ge (bp_systolic v) 170 || py_le (oxygen_saturation v) 92).
Definition rule_stroke (v : Vitals) : bool :=
  py_ge (bp_systolic v) 180 || py_ge (bp_diastolic v) 120.
Definition rule_respiratory (v : Vitals) : bool :=
  py_le (oxygen_saturation v) 90.
Definition rule_sepsis (v : Vitals) : bool :=
  py_ge (temperature v) 38.5 && py_ge (heart_rate v) 120.

(** [level == "red"] and [level in ("orange", "red")] *)
Definition is_red (level : string) : bool := String.eqb level "red".
Definition is_orange_or_red (level : string) : bool :=
  String.eqb level "orange" || String.eqb level "red".

(** [not outcomes] *)
Definition is_empty {A : Type} (l : list A) : bool :=
  match l with [] => true | _ :: _ => false end.

(** ** [src/risk_engine.py] *)

Module Engine.

(** [RollingWindow.__init__(self, maxlen: int = 120)] *)
Definition default_maxlen : nat := 120.
Definition init (maxlen : nat) : RollingWindow := mkWindow maxlen [].
Definition init_default : RollingWindow := init default_maxlen.

(** [t_epoch or time.time()]: the clock is read only when the argument is
    [None] or falsy; [clock] is the value [time.time()] would return. *)
Definition stamp (t_epoch : option float) (clock : float) : float :=
  match t_epoch with
  | Some t => if truthy t then t else clock
  | None => clock
  end.

(** [RollingWindow.push(self, vitals, t_epoch=None)] *)
Definition push (w : RollingWindow) (vitals : Vitals) (t_epoch : option float)
    (clock : float) : RollingWindow :=
  mkWindow (maxlen w) (deque_append (maxlen w) (data w) (stamp t_epoch clock, vitals)).

(** [RollingWindow._rate_per_min(self, key, seconds)] *)
Definition _rate_per_min (w : RollingWindow) (key : VitalKey) (seconds : float) : float :=
  rate_body (data w) key seconds.

(** [RollingWindow.rates_per_min(self)] *)
Definition rates_per_min (w : RollingWindow) : Rates :=
  {| r_heart_rate := _rate_per_min w k_heart_rate 60;
     r_bp_systolic := _rate_per_min w k_bp_systolic 120;
     r_oxygen_saturation := _rate_per_min w k_oxygen_saturation 60;
     r_temperature := _rate_per_min w k_temperature 300 |}.

(** The eleven checks of [classify_level], up to the clamp. *)
Definition checks (v : Vitals) (th : Thresholds) (rates : Rates) : Tally :=
  let s := mkTally [] 0 0 0 in
  (* RED thresholds *)
  let s := when (c_hr_red v th) (red_hit 25 (msg_hr_red v th)) s in
  let s := when (c_spo2_red v th) (red_hit 30 (msg_spo2_red v th)) s in
  let s := when (c_bp_red v th) (red_hit 25 (msg_bp_red v th)) s in
  let s := when (c_temp_red v th) (red_hit 15 (msg_temp_red v th)) s in
  (* Trend boosts *)
  let s := when (c_hr_rising rates) (boost 10 (msg_hr_rising rates)) s in
  let s := when (c_spo2_dropping rates) (boost 15 (msg_spo2_dropping rates)) s in
  let s := when (c_sys_rising rates) (boost 10 (msg_sys_rising rates)) s in
  (* Yellow thresholds *)
  let s := when (c_hr_yellow v th) (warn_hit 8 (msg_hr_yellow v th)) s in
  let s := when (c_spo2_yellow v th) (warn_hit 10 (msg_spo2_yellow v th)) s in
  let s := when (c_bp_yellow v th) (warn_hit 8 (msg_bp_yellow v)) s in
  let s := when (c_temp_yellow v th) (warn_hit 6 (msg_temp_yellow v)) s in
  s.

(** [classify_level(v, th, rates) -> (level, reasons, score)] *)
Definition classify_level (v : Vitals) (th : Thresholds) (rates : Rates)
    : string * list string * float :=
  decide_level (checks v th rates).

Record Outcome := mkOutcome {
  name : string;
  probability : float;
  because : list string;
  action : string
}.

Local Open Scope string_scope.

Definition cardiac (level : string) (reasons : list string) : Outcome :=
  {| name := "Acute cardiac event risk";
     probability := if is_red level then 0.75 else 0.55;
     because := "High HR with high BP or low SpO2" :: firstn 2 reasons;
     action := "Immediate clinician review; ECG + troponin; oxygen support if needed." |}.

Definition stroke (level : string) (reasons : list string) : Outcome :=
  {| name := "Stroke / hypertensive crisis risk";
     probability := if is_orange_or_red level then 0.80 else 0.60;
     because := "Severely elevated blood pressure" :: firstn 2 reasons;
     action := "Urgent BP management; neuro checks; emergency protocol if needed." |}.

Definition respiratory (level : string) (reasons : list string) : Outcome :=
  {| name := "Respiratory compromise risk";
     probability := if is_red level then 0.85 else 0.65;
     because := "Low oxygen saturation" :: firstn 2 reasons;
     action := "Check airway; oxygen; evaluate pulmonary causes." |}.

Definition sepsis (level : string) (reasons : list string) : Outcome :=
  {| name := "Systemic infection / sepsis risk (screen)";
     probability := if is_orange_or_red level then 0.60 else 0.40;
     because := "Fever + tachycardia pattern" :: firstn 2 reasons;
     action := "Clinical assessment; labs; fluids per protocol if indicated." |}.

Definition fallback (reasons : list string) : Outcome :=
  {| name := "Undifferentiated deterioration risk";
     probability := 0.50;
     because := firstn 3 reasons;
     action := "Repeat vitals; verify sensors; clinician evaluation." |}.

(** [infer_outcomes(v, level, reasons)]; each [outcomes.append] extends
    the list on the right. *)
Definition infer_outcomes (v : Vitals) (level : string) (reasons : list string)
    : list Outcome :=
  let outcomes : list Outcome := [] in
  let outcomes :=
    if rule_cardiac v then append outcomes (cardiac level reasons) else outcomes in
  let outcomes :=
    if rule_stroke v then append outcomes (stroke level reasons) else outcomes in
  let outcomes :=
    if rule_respiratory v then append outcomes (respiratory level reasons) else outcomes in
  let outcomes :=
    if rule_sepsis v then append outcomes (sepsis level reasons) else outcomes in
  let outcomes :=
    if is_empty outcomes && is_orange_or_red level
    then append outcomes (fallback reasons) else outcomes in
  outcomes.

End Engine.

(** ** [src/backend-python/app/risk_engine.py] *)

Module Backend.

(** [RollingWindow.__init__(self, maxlen: int = 60)] *)
Definition default_maxlen : nat := 60.
Definition init (maxlen : nat) : RollingWindow := mkWindow maxlen [].
Definition init_default : RollingWindow := init default_maxlen.

(** [RollingWindow.push(self, t_epoch, vitals)] *)
Definition push (w : RollingWindow) (t_epoch : float) (vitals : Vitals) : RollingWindow :=
  mkWindow (maxlen w) (deque_append (maxlen w) (data w) (t_epoch, vitals)).

(** [RollingWindow._rate(self, key, seconds=60.0)] *)
Definition _rate (w : RollingWindow) (key : VitalKey) (seconds : float) : float :=
  rate_body (data w) key seconds.

(** [RollingWindow.rates_per_min(self)] *)
Definition rates_per_min (w : RollingWindow) : Rates :=
  {| r_heart_rate := _rate w k_heart_rate 60;
     r_bp_systolic := _rate w k_bp_systolic 120;
     r_oxygen_saturation := _rate w k_oxygen_saturation 60;
     r_temperature := _rate w k_temperature 300 |}.

(** The eleven checks of [classify_level], up to the clamp.  The heart-rate
    warning appends its reason only when the red heart-rate string is not
    already in the list. *)
Definition checks (v : Vitals) (th : Thresholds) (rates : Rates) : Tally :=
  let s := mkTally [] 0 0 0 in
  (* Hard critical lines (RED) *)
  let s := when (c_hr_red v th) (red_hit 25 (msg_hr_red v th)) s in
  let s := when (c_spo2_red v th) (red_hit 30 (msg_spo2_red v th)) s in
  let s := when (c_bp_red v th) (red_hit 25 (msg_bp_red v th)) s in
  let s := when (c_temp_red v th) (red_hit 15 (msg_temp_red v th)) s in
  (* Trend-based boosts (rate-of-change) *)
  let s := when (c_hr_rising rates) (boost 10 (msg_hr_rising rates)) s in
  let s := when (c_spo2_dropping rates) (boost 15 (msg_spo2_dropping rates)) s in
  let s := when (c_sys_rising rates) (boost 10 (msg_sys_rising rates)) s in
  (* Yellow/orange checks (warning lines) *)
  let s := when (c_hr_yellow v th)
             (warn_hit_unless (msg_hr_red v th) 8 (msg_hr_yellow v th)) s in
  let s := when (c_spo2_yellow v th) (warn_hit 10 (msg_spo2_yellow v th)) s in
  let s := when (c_bp_yellow v th) (warn_hit 8 (msg_bp_yellow v)) s in
  let s := when (c_temp_yellow v th) (warn_hit 6 (msg_temp_yellow v)) s in
  s.

(** [classify_level(v, th, rates) -> (level, reasons, score)] *)
Definition classify_level (v : Vitals) (th : Thresholds) (rates : Rates)
    : string * list string * float :=
  decide_level (checks v th rates).

Record Outcome := mkOutcome {
  name : string;
  probability : float;
  because : list string;
  suggested_action : string
}.

Local Open Scope string_scope.

Definition cardiac (level : string) (reasons : list string) : Outcome :=
  {| name := "Acute cardiac event risk";
     probability := if is_red level then 0.75 else 0.55;
     because := "High HR with high BP or low SpO2" :: firstn 2 reasons;
     suggested_action :=
       "Immediate clinician review; ECG + troponin; oxygen support if needed." |}.

Definition stroke (level : string) (reasons : list string) : Outcome :=
  {| name := "Stroke / hypertensive crisis risk";
     probability := if is_orange_or_red level then 0.80 else 0.60;
     because := "Severely elevated blood pressure" :: firstn 2 reasons;
     suggested_action :=
       "Urgent BP management; neuro checks; consider emergency protocol." |}.

Definition respiratory (level : string) (reasons : list string) : Outcome :=
  {| name := "Respiratory compromise risk";
     probability := if is_red level then 0.85 else 0.65;
     because := "Low oxygen saturation" :: firstn 2 reasons;
     suggested_action :=
       "Check airway; oxygen; consider ABG; evaluate pulmonary causes." |}.

Definition sepsis (level : string) (reasons : list string) : Outcome :=
  {| name := "Systemic infection / sepsis risk (screen)";
     probability := if is_orange_or_red level then 0.60 else 0.40;
     because := "Fever + tachycardia pattern" :: firstn 2 reasons;
     suggested_action :=
       "Clinical assessment; labs; cultures; fluids per protocol if indicated." |}.

Definition fallback (reasons : list string) : Outcome :=
  {| name := "Undifferentiated deterioration risk";
     probability := 0.50;
     because := firstn 3 reasons;
     suggested_action := "Repeat vitals; verify sensors; clinician evaluation." |}.

(** [infer_outcomes(v, level, reasons)] *)
Definition infer_outcomes (v : Vitals) (level : string) (reasons : list string)
    : list Outcome :=
  let outcomes : list Outcome := [] in
  let outcomes :=
    if rule_cardiac v then append outcomes (cardiac level reasons) else outcomes in
  let outcomes :=
    if rule_stroke v then append outcomes (stroke level reasons) else outcomes in
  let outcomes :=
    if rule_respiratory v then append outcomes (respiratory level reasons) else outcomes in
  let outcomes :=
    if rule_sepsis v then append outcomes (sepsis level reasons) else outcomes in
  let outcomes :=
    if is_empty outcomes && is_orange_or_red level
    then append outcomes (fallback reasons) else outcomes in
  outcomes.

End Backend.

(** ** Sequences of pushes *)

(** One call [w.push(vitals, t_epoch)] of [Engine], with the value the clock
    would give if it were read during the call. *)
Record EngineCall := mkCall {
  call_vitals : Vitals;
  call_t_epoch : option float;
  call_clock : float
}.

(** The entry such a call appends. *)
Definition engine_entry (c : EngineCall) : Entry :=
  (Engine.stamp (call_t_epoch c) (call_clock c), call_vitals c).

Definition engine_pushes (w : RollingWindow) (calls : list EngineCall) : RollingWindow :=
  fold_left (fun w c => Engine.push w (call_vitals c) (call_t_epoch c) (call_clock c))
            calls w.

(** A sequence of calls [w.push(t_epoch, vitals)] of [Backend]. *)
Definition backend_pushes (w : RollingWindow) (calls : list Entry) : RollingWindow :=
  fold_left (fun w c => Backend.push w (fst c) (snd c)) calls w.

(** ** Reading a classification result *)

Definition level_of (r : string * list string * float) : string := fst (fst r).
Definition reasons_of (r : string * list string * float) : list string := snd (fst r).
Definition score_of (r : string * list string * float) : float := snd r.

(** The scenario of the specification: profile "normal", every rate zero. *)
Definition v_scenario : Vitals := mkVitals 160 185 95 90 37.0.
Definition rates_zero : Rates := mkRates 0 0 0 0.

(** ** The tally as a function of the conditions *)

(** What a check adds to the score when its condition is [c]. *)
Definition plus_if (c : bool) (pts : float) (x : float) : float :=
  if c then x + pts else x.

Definition succ_if (c : bool) (n : nat) : nat := if c then S n else n.

(** The reason a check contributes: none, or its one string. *)
Definition said (c : bool) (msg : string) : list string :=
  if c then [msg] else [].

(** The score, the red count and the warning count as functions of the
    eleven conditions, in source order. *)
Definition total (r1 r2 r3 r4 t1 t2 t3 y1 y2 y3 y4 : bool) : float :=
  plus_if y4 6 (plus_if y3 8 (plus_if y2 10 (plus_if y1 8
  (plus_if t3 10 (plus_if t2 15 (plus_if t1 10
  (plus_if r4 15 (plus_if r3 25 (plus_if r2 30 (plus_if r1 25 0)))))))))).

Definition count4 (a b c d : bool) : nat :=
  succ_if d (succ_if c (succ_if b (succ_if a 0%nat))).

(** ** The level rules, as propositions *)

Section LevelRules.
Variable s : Tally.
Let final : float := clamp (score s).

Definition red_rule : Prop :=
  (1 <= red_hits s)%nat /\ py_ge final 55 = true.
Definition orange_rule : Prop :=
  (1 <= red_hits s)%nat \/ py_ge final 45 = true \/ (2 <= warn_hits s)%nat.
Definition yellow_rule : Prop :=
  (1 <= warn_hits s)%nat \/ py_ge final 20 = true.

(** The result [r] is the one the priority order prescribes for [s]. *)
Definition by_priority (r : string * list string * float) : Prop :=
  score_of r = final /\
  reasons_of r = reasons s /\
  (level_of r = "red"%string <-> red_rule) /\
  (level_of r = "orange"%string <-> ~ red_rule /\ orange_rule) /\
  (level_of r = "yellow"%string <-> ~ red_rule /\ ~ orange_rule /\ yellow_rule) /\
  (level_of r = "green"%string <-> ~ red_rule /\ ~ orange_rule /\ ~ yellow_rule).
End LevelRules.

(** The three counters of [s] are those the eleven conditions give. *)
Definition tallied (v : Vitals) (th : Thresholds) (rates : Rates) (s : Tally) : Prop :=
  red_hits s
    = count4 (c_hr_red v th) (c_spo2_red v th) (c_bp_red v th) (c_temp_red v th) /\
  warn_hits s
    = count4 (c_hr_yellow v th) (c_spo2_yellow v th) (c_bp_yellow v th)
             (c_temp_yellow v th) /\
  score s
    = total (c_hr_red v th) (c_spo2_red v th) (c_bp_red v th) (c_temp_red v th)
            (c_hr_rising rates) (c_spo2_dropping rates) (c_sys_rising rates)
            (c_hr_yellow v th) (c_spo2_yellow v th) (c_bp_yellow v th)
            (c_temp_yellow v th).

(** ** The threshold invariant, as a proposition *)

(** Every warning limit is strictly less severe than its danger limit. *)
Definition yellow_inside_red (th : Thresholds) : Prop :=
  py_lt (hr_yellow th) (hr_red th) = true /\
  py_gt (spo2_yellow th) (spo2_red th) = true /\
  py_lt (sys_yellow th) (sys_red th) = true /\
  py_lt (dia_yellow th) (dia_red th) = true /\
  py_lt (temp_yellow_hi th) (temp_red_hi th) = true /\
  py_gt (temp_yellow_lo th) (temp_red_lo th) = true.

(** The same vitals with another heart rate. *)
Definition with_heart_rate (v : Vitals) (hr : float) : Vitals :=
  mkVitals hr (bp_systolic v) (bp_diastolic v) (oxygen_saturation v) (temperature v).

(** What the three trend boosts alone add up to. *)
Definition trend_total (rates : Rates) : float :=
  plus_if (c_sys_rising rates) 10
    (plus_if (c_spo2_dropping rates) 15 (plus_if (c_hr_rising rates) 10 0)).

(** The conclusions drawn for a tally without red or yellow hit. *)
Definition trend_only_result (rates : Rates) (s : Tally)
    (r : string * list string * float) : Prop :=
  score s = trend_total rates /\
  py_le (score s) 35 = true /\
  score_of r = score s /\
  level_of r <> "orange"%string /\
  level_of r <> "red"%string /\
  (py_ge (score s) 20 = true -> level_of r = "yellow"%string) /\
  (py_ge (score s) 20 = false -> level_of r = "green"%string).

(** ** The outcome list, rule by rule *)

(** What one rule contributes: nothing, or its one outcome. *)
Definition emitted {A : Type} (c : bool) (x : A) : list A :=
  if c then [x] else [].

(** Some pattern rule fired. *)
Definition some_rule (v : Vitals) : bool :=
  rule_cardiac v || rule_stroke v || rule_respiratory v || rule_sepsis v.

(** The list the rules give when each is evaluated on its own. *)
Definition engine_rule_by_rule (v : Vitals) (level : string) (reasons : list string)
    : list Engine.Outcome :=
  emitted (rule_cardiac v) (Engine.cardiac level reasons)
  ++ emitted (rule_stroke v) (Engine.stroke level reasons)
  ++ emitted (rule_respiratory v) (Engine.respiratory level reasons)
  ++ emitted (rule_sepsis v) (Engine.sepsis level reasons)
  ++ emitted (negb (some_rule v) && is_orange_or_red level) (Engine.fallback reasons).

Definition backend_rule_by_rule (v : Vitals) (level : string) (reasons : list string)
    : list Backend.Outcome :=
  emitted (rule_cardiac v) (Backend.cardiac level reasons)
  ++ emitted (rule_stroke v) (Backend.stroke level reasons)
  ++ emitted (rule_respiratory v) (Backend.respiratory level reasons)
  ++ emitted (rule_sepsis v) (Backend.sepsis level reasons)
  ++ emitted (negb (some_rule v) && is_orange_or_red level) (Backend.fallback reasons).

(** The name, probability and explanation of an outcome of either file. *)
Definition engine_view (o : Engine.Outcome) : string * float * list string :=
  (Engine.name o, Engine.probability o, Engine.because o).
Definition backend_view (o : Backend.Outcome) : string * float * list string :=
  (Backend.name o, Backend.probability o, Backend.because o).

(** ** The rate, as the specification words it *)

(** The sample is old enough to serve as the reference of a rate. *)
Definition old_enough (t_now seconds : float) (e : Entry) : bool :=
  py_ge (t_now - fst e) seconds.

Section RateDescribed.
Variables (d : list Entry) (key : VitalKey) (seconds : float).

(** [ref] is the first sample, oldest first, that is old enough with
    respect to [t_now]; or no sample is old enough and [ref] is the
    oldest one. *)
Definition reference_choice (t_now : float) (ref : Entry) : Prop :=
  (exists i,
      nth_error d i = Some ref /\
      old_enough t_now seconds ref = true /\
      forall j e, (j < i)%nat -> nth_error d j = Some e ->
                  old_enough t_now seconds e = false)
  \/
  ((forall e, In e d -> old_enough t_now seconds e = false) /\
   nth_error d 0 = Some ref).

(** [result] is the rate the description prescribes for the buffer [d]. *)
Definition rate_described (result : float) : Prop :=
  ((List.length d < 2)%nat -> result = 0) /\
  ((2 <= List.length d)%nat ->
     exists t_now v_now t_ref v_ref,
       nth_error d (List.length d - 1) = Some (t_now, v_now) /\
       reference_choice t_now (t_ref, v_ref) /\
       result
         = (vget v_now key - vget v_ref key) / py_max 1e-6 (t_now - t_ref) * 60).
End RateDescribed.

(** ** What a bounded buffer retains *)

(** After the items [xs] were appended in turn to an empty buffer of
    capacity [cap], the buffer [d] holds the last [cap] of them: never more
    than [cap] items, and, once more than [cap] were appended, the oldest
    one kept is item number [n - cap + 1] (counting from 1). *)
Definition retains_last {A : Type} (cap : nat) (xs d : list A) : Prop :=
  (List.length d <= cap)%nat /\
  d = skipn (List.length xs - cap) xs /\
  ((0 < cap < List.length xs)%nat ->
     List.length d = cap /\
     hd_error d = nth_error xs (List.length xs - cap)).

(** A timestamp other than zero. *)
Definition nonzero (t : float) : Prop := PrimFloat.eqb t 0 = false.

(** ** The reasons list, check by check *)

Section ReasonsInOrder.
Variables (v : Vitals) (th : Thresholds) (rates : Rates).

(** The reasons of the red checks followed by those of the trend boosts. *)
Definition red_and_trend_reasons : list string :=
  said (c_hr_red v th) (msg_hr_red v th)
  ++ said (c_spo2_red v th) (msg_spo2_red v th)
  ++ said (c_bp_red v th) (msg_bp_red v th)
  ++ said (c_temp_red v th) (msg_temp_red v th)
  ++ said (c_hr_rising rates) (msg_hr_rising rates)
  ++ said (c_spo2_dropping rates) (msg_spo2_dropping rates)
  ++ said (c_sys_rising rates) (msg_sys_rising rates).

(** The reasons of the yellow checks after the one on the heart rate. *)
Definition later_yellow_reasons : list string :=
  said (c_spo2_yellow v th) (msg_spo2_yellow v th)
  ++ said (c_bp_yellow v th) (msg_bp_yellow v)
  ++ said (c_temp_yellow v th) (msg_temp_yellow v).

(** Every triggered check speaks, in evaluation order. *)
Definition reasons_all_checks : list string :=
  red_and_trend_reasons
  ++ said (c_hr_yellow v th) (msg_hr_yellow v th)
  ++ later_yellow_reasons.

(** The same, except that the heart-rate warning keeps silent when the
    red heart-rate check has spoken. *)
Definition reasons_hr_deduplicated : list string :=
  red_and_trend_reasons
  ++ said (c_hr_yellow v th && negb (c_hr_red v th)) (msg_hr_yellow v th)
  ++ later_yellow_reasons.
End ReasonsInOrder.

(** ** Inputs of the worked examples *)

(** A healthy sample with the given heart rate. *)
Definition sample (hr : float) : Vitals := mkVitals hr 120 80 98 37.

(** [n] calls with explicit timestamps [t], [t + 1], and so on. *)
Fixpoint ticks (n : nat) (t : float) : list EngineCall :=
  match n with
  | O => []
  | S k => mkCall (sample 70) (Some t) 0 :: ticks k (t + 1)
  end.

(** ** [src/simulator.py]: the clamp *)

(** [_clamp(x, lo, hi)]: [max(lo, min(hi, x))] *)
Definition _clamp (x lo hi : float) : float := py_max lo (py_min hi x).

(** ** Levels as an ordinal scale *)

(** green < yellow < orange < red; any other string counts as green. *)
Definition level_rank (level : string) : nat :=
  if String.eqb level "red" then 3
  else if String.eqb level "orange" then 2
  else if String.eqb level "yellow" then 1
  else 0.

(** Some check of the eleven fires. *)
Definition some_check (v : Vitals) (th : Thresholds) (rates : Rates) : bool :=
  c_hr_red v th || c_spo2_red v th || c_bp_red v th || c_temp_red v th
  || c_hr_rising rates || c_spo2_dropping rates || c_sys_rising rates
  || c_hr_yellow v th || c_spo2_yellow v th || c_bp_yellow v th || c_temp_yellow v th.

(** Some red check fires. *)
Definition some_red (v : Vitals) (th : Thresholds) : bool :=
  c_hr_red v th || c_spo2_red v th || c_bp_red v th || c_temp_red v th.

(** The same vitals with another saturation, systolic or diastolic pressure. *)
Definition with_oxygen_saturation (v : Vitals) (x : float) : Vitals :=
  mkVitals (heart_rate v) (bp_systolic v) (bp_diastolic v) x (temperature v).
Definition with_bp_systolic (v : Vitals) (x : float) : Vitals :=
  mkVitals (heart_rate v) x (bp_diastolic v) (oxygen_saturation v) (temperature v).
Definition with_bp_diastolic (v : Vitals) (x : float) : Vitals :=
  mkVitals (heart_rate v) (bp_systolic v) x (oxygen_saturation v) (temperature v).

(** The level the decision gives for the tally of eleven conditions. *)
Definition level_at (r1 r2 r3 r4 t1 t2 t3 y1 y2 y3 y4 : bool) : string :=
  level_of (decide_level
              (mkTally [] (total r1 r2 r3 r4 t1 t2 t3 y1 y2 y3 y4)
                       (count4 r1 r2 r3 r4) (count4 y1 y2 y3 y4))).

(** ** Calls with an explicit timestamp *)

(** The call of [Engine] that passes the timestamp and vitals of [e]
    explicitly, made while the clock reads [clock]. *)
Definition explicit_call (p : Entry * float) : EngineCall :=
  mkCall (snd (fst p)) (Some (fst (fst p))) (snd p).

(** The rates dictionary with every rate at zero. *)
Definition no_rates : Rates := mkRates 0 0 0 0.

(** ** Thresholds against the constants of the outcome rules *)

(** The limits of [th] are no stricter than the constants the pattern rules
    of [infer_outcomes] test the vitals against. *)
Definition covers_rules (th : Thresholds) : Prop :=
  py_le (sys_red th) 180 = true /\
  py_le (dia_red th) 120 = true /\
  py_le 90 (spo2_red th) = true /\
  py_le (hr_yellow th) 120 = true /\
  py_le (sys_yellow th) 170 = true /\
  py_le 92 (spo2_yellow th) = true /\
  py_le (temp_yellow_hi th) 38.5 = true.

(** ** [round(x, ndigits)] on floats

    The interpreter rounds the exact binary value to [ndigits] decimals,
    ties to even, and returns the float nearest to that decimal number.
    While the scaled integer [t] is below [2^53] it is a float, and so is
    the power of ten for the [ndigits] used here (1 and 2), so that the
    nearest float is the machine quotient; from [2^53] on the spacing of
    floats around [x] exceeds the rounding step and the nearest float is
    [x] itself.  Zeros, infinities and NaN are returned unchanged. *)

Definition float_of_Z (z : Z) : float := PrimFloat.of_uint63 (Uint63.of_Z z).

Definition py_round (x : float) (ndigits : Z) : float :=
  match Prim2SF x with
  | S754_finite s m e =>
      let '(n, d) := magnitude m e in
      let p := (10 ^ ndigits)%Z in
      let t := round_half_even (p * n) d in
      if (t <? 2 ^ 53)%Z then
        let q := float_of_Z t / float_of_Z p in
        if s then - q else q
      else x
  | _ => x
  end.

(** ** [src/simulator.py]: the random walk *)

(** A computation that draws from [random.random()]: it reads the source of
    draws from a position on and returns the next position. *)
Definition Rand (A : Type) : Type := (nat -> float) -> nat -> A * nat.

Definition ret {A : Type} (a : A) : Rand A := fun _ n => (a, n).

Definition bind {A B : Type} (c : Rand A) (k : A -> Rand B) : Rand B :=
  fun src n => let '(a, n') := c src n in k a src n'.

Notation "x <- c ;; k" := (bind c (fun x => k))
  (at level 61, c at next level, right associativity).

(** [random.random()] *)
Definition random : Rand float := fun src n => (src n, S n).

(** [random.uniform(a, b)]: [a + (b - a) * self.random()] *)
Definition uniform (a b : float) : Rand float :=
  u <- random ;; ret (a + (b - a) * u).

(** The state dictionary once it is filled: keys hr, sys, dia, spo2, temp. *)
Record SimState := mkSim {
  sim_hr : float;
  sim_sys : float;
  sim_dia : float;
  sim_spo2 : float;
  sim_temp : float
}.

(** The values [state.update(...)] writes into an empty state. *)
Definition initial_state (profile : string) : SimState :=
  if String.eqb profile "athlete" then mkSim 62 118 74 98 36.6
  else if String.eqb profile "hypertensive" then mkSim 82 148 96 97 36.8
  else if String.eqb profile "critical" then mkSim 98 140 92 95 37.4
  else mkSim 78 124 80 98 36.7.

(** [generate_vitals(profile, state)].  The callers pass the dictionary
    they keep per patient: empty before the first call ([None]), and filled
    with the five keys by that call ever after ([Some]).  The state returned
    is the dictionary as the call leaves it; the draws are read in the order
    the source makes them. *)
Definition generate_vitals (profile : string) (state : option SimState)
    : Rand (Vitals * SimState) :=
  let st := match state with
            | None => initial_state profile
            | Some s => s
            end in
  (* random walk *)
  d <- uniform (-2.5) 2.5 ;; let hr := sim_hr st + d in
  d <- uniform (-3.0) 3.0 ;; let sys := sim_sys st + d in
  d <- uniform (-2.0) 2.0 ;; let dia := sim_dia st + d in
  d <- uniform (-0.6) 0.4 ;; let spo2 := sim_spo2 st + d in
  d <- uniform (-0.05) 0.05 ;; let temp := sim_temp st + d in
  (* occasional deterioration *)
  u <- random ;;
  bp <- (if py_lt u 0.02 then
           a <- uniform 10 25 ;;
           b <- uniform 15 35 ;;
           c <- uniform 10 20 ;;
           ret (hr + a, sys + b, dia + c)
         else ret (hr, sys, dia)) ;;
  let '(hr, sys, dia) := bp in
  u <- random ;;
  spo2 <- (if py_lt u 0.02 then a <- uniform 2 6 ;; ret (spo2 - a) else ret spo2) ;;
  u <- random ;;
  temp <- (if py_lt u 0.01 then a <- uniform 0.6 1.2 ;; ret (temp + a) else ret temp) ;;
  (* clamp *)
  let st' := mkSim (_clamp hr 40 190) (_clamp sys 90 220) (_clamp dia 50 140)
                   (_clamp spo2 75 100) (_clamp temp 34.0 41.0) in
  ret (mkVitals (py_round (sim_hr st') 1) (py_round (sim_sys st') 1)
                (py_round (sim_dia st') 1) (py_round (sim_spo2 st') 1)
                (py_round (sim_temp st') 2),
       st').

(** ** The callers: [src/app.py] and [src/backend-python/app/main.py] *)

(** [title_map[level]]; a key that is not in the dictionary raises
    [KeyError], which is [None] here. *)
Definition title_map (level : string) : option string :=
  if String.eqb level "green" then Some "Stable"%string
  else if String.eqb level "yellow" then Some "Warning"%string
  else if String.eqb level "orange" then Some "High Risk"%string
  else if String.eqb level "red" then Some "CRITICAL ALERT"%string
  else None.

(** [" | ".join(reasons[:4]) if reasons else "No abnormalities detected."] *)
Definition explain_of (reasons : list string) : string :=
  if is_empty reasons then "No abnormalities detected."%string
  else String.concat " | " (firstn 4 reasons).

(** [level in ("yellow", "orange", "red")] *)
Definition is_event_level (level : string) : bool :=
  String.eqb level "yellow" || String.eqb level "orange" || String.eqb level "red".

(** [maybe_notify]: whether a request is posted; [level not in ("orange",
    "red")] returns before any is. *)
Definition maybe_notify (level : string) : bool :=
  if negb (is_orange_or_red level) then false else true.

(** [history.append(row); history = history[-300:]] *)
Definition history_step {A : Type} (history : list A) (row : A) : list A :=
  let h := append history row in
  skipn (List.length h - 300) h.

(** One rerun of the script of [src/app.py], from the push of the vitals
    to the persistence: what it computes, the "risk_score" of its history
    row, and what it asks the storage to save.  [persist_db] is the sidebar
    toggle, [clock] the time the push reads. *)
Record AppTick := mkAppTick {
  app_window : RollingWindow;
  app_rates : Rates;
  app_level : string;
  app_reasons : list string;
  app_score : float;
  app_outcomes : list Engine.Outcome;
  app_title : string;
  app_explain : string;
  app_risk_score : float;
  app_saves_vital : bool;
  app_saves_event : bool
}.

Definition app_tick (persist_db : bool) (w : RollingWindow) (profile : string)
    (vitals : Vitals) (clock : float) : option AppTick :=
  let w := Engine.push w vitals None clock in
  let rates := Engine.rates_per_min w in
  let th := patient_thresholds profile in
  let '(level, reasons, score) := Engine.classify_level vitals th rates in
  let outcomes := Engine.infer_outcomes vitals level reasons in
  match title_map level with
  | None => None
  | Some title =>
      Some {| app_window := w; app_rates := rates; app_level := level;
              app_reasons := reasons; app_score := score;
              app_outcomes := outcomes; app_title := title;
              app_explain := explain_of reasons;
              app_risk_score := py_round score 1;
              app_saves_vital := persist_db;
              app_saves_event := persist_db && is_event_level level |}
  end.

(** One turn of the loop of [ws_endpoint] in [main.py], from the push at
    time [t] to the notification: what it computes, the "risk_score" of its
    payload, whether it logs an event and whether it posts a notification. *)
Record WsTick := mkWsTick {
  ws_window : RollingWindow;
  ws_rates : Rates;
  ws_level : string;
  ws_reasons : list string;
  ws_score : float;
  ws_outcomes : list Backend.Outcome;
  ws_title : string;
  ws_explain : string;
  ws_risk_score : float;
  ws_logs_event : bool;
  ws_notifies : bool
}.

Definition ws_tick (w : RollingWindow) (profile : string) (vitals : Vitals)
    (t : float) : option WsTick :=
  let w := Backend.push w t vitals in
  let rates := Backend.rates_per_min w in
  let th := patient_thresholds profile in
  let '(level, reasons, score) := Backend.classify_level vitals th rates in
  let outcomes := Backend.infer_outcomes vitals level reasons in
  match title_map level with
  | None => None
  | Some title =>
      Some {| ws_window := w; ws_rates := rates; ws_level := level;
              ws_reasons := reasons; ws_score := score;
              ws_outcomes := outcomes; ws_title := title;
              ws_explain := explain_of reasons;
              ws_risk_score := py_round score 1;
              ws_logs_event := is_event_level level;
              ws_notifies := is_event_level level && maybe_notify level |}
  end.

(** A string that begins with a character other than "N". *)
Definition starts_not_N (m : string) : Prop :=
  match m with
  | String c _ => c <> "N"%char
  | EmptyString => False
  end.

(** Every field of the simulator state lies within its clamp range. *)
Definition state_in_range (st : SimState) : Prop :=
  (py_le 40 (sim_hr st) = true /\ py_le (sim_hr st) 190 = true) /\
  (py_le 90 (sim_sys st) = true /\ py_le (sim_sys st) 220 = true) /\
  (py_le 50 (sim_dia st) = true /\ py_le (sim_dia st) 140 = true) /\
  (py_le 75 (sim_spo2 st) = true /\ py_le (sim_spo2 st) 100 = true) /\
  (py_le 34.0 (sim_temp st) = true /\ py_le (sim_temp st) 41.0 = true).

(** The vitals are the state rounded to one decimal, two for the
    temperature. *)
Definition rounded_state (st : SimState) : Vitals :=
  mkVitals (py_round (sim_hr st) 1) (py_round (sim_sys st) 1)
           (py_round (sim_dia st) 1) (py_round (sim_spo2 st) 1)
           (py_round (sim_temp st) 2).

(** Every vital lies within the clamp range of its state field. *)
Definition vitals_in_range (v : Vitals) : Prop :=
  (py_le 40 (heart_rate v) = true /\ py_le (heart_rate v) 190 = true) /\
  (py_le 90 (bp_systolic v) = true /\ py_le (bp_systolic v) 220 = true) /\
  (py_le 50 (bp_diastolic v) = true /\ py_le (bp_diastolic v) 140 = true) /\
  (py_le 75 (oxygen_saturation v) = true /\ py_le (oxygen_saturation v) 100 = true) /\
  (py_le 34.0 (temperature v) = true /\ py_le (temperature v) 41.0 = true).

(** The integers [a], [a + 1], ..., [a + len - 1]. *)
Definition Z_range (a : Z) (len : nat) : list Z :=
  map (fun i => (a + Z.of_nat i)%Z) (seq 0 len).

(** The float nearest to [t / 10^k] lies between [lo] and [hi]. *)
Definition rounds_within (lo hi : float) (k t : Z) : bool :=
  py_le lo (float_of_Z t / float_of_Z (10 ^ k))
  && py_le (float_of_Z t / float_of_Z (10 ^ k)) hi.

(** * Properties *)

(** ** The order on floats *)

Lemma SFleb_trans (a b c : spec_float) :
  SFleb a b = true -> SFleb b c = true -> SFleb a c = true.
Proof.
  unfold SFleb, SFcompare.
  destruct a as [sa|sa| |sa ma ea], b as [sb|sb| |sb mb eb], c as [sc|sc| |sc mc ec];
    try (destruct sa); try (destruct sb); try (destruct sc);
    try reflexivity; try discriminate; intros Hab Hbc.
  all: destruct (Z.compare_spec ea eb); try discriminate;
       destruct (Z.compare_spec eb ec); try discriminate;
       destruct (Z.compare_spec ea ec); try reflexivity; try lia; subst.
  all: rewrite ?Pos.compare_cont_spec in *; simpl in *.
  all: destruct (Pos.compare_spec ma mb); try discriminate;
       destruct (Pos.compare_spec mb mc); try discriminate;
       destruct (Pos.compare_spec ma mc); try reflexivity; try lia.
Qed.

Lemma py_ge_trans (lim a b : float) :
  py_ge a lim = true -> py_le a b = true -> py_ge b lim = true.
Proof.
  unfold py_ge, py_le. rewrite !leb_spec. apply SFleb_trans.
Qed.

(** ** How one check changes the tally *)

Section TallySteps.
Variables (c : bool) (pts : float) (msg seen : string) (s : Tally).

Lemma score_red : score (when c (red_hit pts msg) s) = plus_if c pts (score s).
Proof. destruct c; reflexivity. Qed.
Lemma score_boost : score (when c (boost pts msg) s) = plus_if c pts (score s).
Proof. destruct c; reflexivity. Qed.
Lemma score_warn : score (when c (warn_hit pts msg) s) = plus_if c pts (score s).
Proof. destruct c; reflexivity. Qed.
Lemma score_warn_unless :
  score (when c (warn_hit_unless seen pts msg) s) = plus_if c pts (score s).
Proof. destruct c; reflexivity. Qed.

Lemma red_hits_red : red_hits (when c (red_hit pts msg) s) = succ_if c (red_hits s).
Proof. destruct c; reflexivity. Qed.
Lemma red_hits_boost : red_hits (when c (boost pts msg) s) = red_hits s.
Proof. destruct c; reflexivity. Qed.
Lemma red_hits_warn : red_hits (when c (warn_hit pts msg) s) = red_hits s.
Proof. destruct c; reflexivity. Qed.
Lemma red_hits_warn_unless :
  red_hits (when c (warn_hit_unless seen pts msg) s) = red_hits s.
Proof. destruct c; reflexivity. Qed.

Lemma warn_hits_red : warn_hits (when c (red_hit pts msg) s) = warn_hits s.
Proof. destruct c; reflexivity. Qed.
Lemma warn_hits_boost : warn_hits (when c (boost pts msg) s) = warn_hits s.
Proof. destruct c; reflexivity. Qed.
Lemma warn_hits_warn : warn_hits (when c (warn_hit pts msg) s) = succ_if c (warn_hits s).
Proof. destruct c; reflexivity. Qed.
Lemma warn_hits_warn_unless :
  warn_hits (when c (warn_hit_unless seen pts msg) s) = succ_if c (warn_hits s).
Proof. destruct c; reflexivity. Qed.

Lemma reasons_red : reasons (when c (red_hit pts msg) s) = reasons s ++ said c msg.
Proof. destruct c; simpl; [reflexivity | now rewrite app_nil_r]. Qed.
Lemma reasons_boost : reasons (when c (boost pts msg) s) = reasons s ++ said c msg.
Proof. destruct c; simpl; [reflexivity | now rewrite app_nil_r]. Qed.
Lemma reasons_warn : reasons (when c (warn_hit pts msg) s) = reasons s ++ said c msg.
Proof. destruct c; simpl; [reflexivity | now rewrite app_nil_r]. Qed.
Lemma reasons_warn_unless :
  reasons (when c (warn_hit_unless seen pts msg) s)
  = reasons s ++ said (c && negb (str_in seen (reasons s))) msg.
Proof.
  destruct c; simpl; [| now rewrite app_nil_r].
  destruct (str_in seen (reasons s)); simpl; [now rewrite app_nil_r | reflexivity].
Qed.
End TallySteps.

Create Rewrite HintDb tally.
#[local] Hint Rewrite score_red score_boost score_warn score_warn_unless
  red_hits_red red_hits_boost red_hits_warn red_hits_warn_unless
  warn_hits_red warn_hits_boost warn_hits_warn warn_hits_warn_unless : tally.

Section Tallies.
Variables (v : Vitals) (th : Thresholds) (rates : Rates).

Let the_total : float :=
  total (c_hr_red v th) (c_spo2_red v th) (c_bp_red v th) (c_temp_red v th)
        (c_hr_rising rates) (c_spo2_dropping rates) (c_sys_rising rates)
        (c_hr_yellow v th) (c_spo2_yellow v th) (c_bp_yellow v th)
        (c_temp_yellow v th).
Let the_reds : nat :=
  count4 (c_hr_red v th) (c_spo2_red v th) (c_bp_red v th) (c_temp_red v th).
Let the_warns : nat :=
  count4 (c_hr_yellow v th) (c_spo2_yellow v th) (c_bp_yellow v th)
         (c_temp_yellow v th).

Lemma engine_score : score (Engine.checks v th rates) = the_total.
Proof. unfold Engine.checks. autorewrite with tally. reflexivity. Qed.
Lemma engine_red_hits : red_hits (Engine.checks v th rates) = the_reds.
Proof. unfold Engine.checks. autorewrite with tally. reflexivity. Qed.
Lemma engine_warn_hits : warn_hits (Engine.checks v th rates) = the_warns.
Proof. unfold Engine.checks. autorewrite with tally. reflexivity. Qed.

Lemma backend_score : score (Backend.checks v th rates) = the_total.
Proof. unfold Backend.checks. autorewrite with tally. reflexivity. Qed.
Lemma backend_red_hits : red_hits (Backend.checks v th rates) = the_reds.
Proof. unfold Backend.checks. autorewrite with tally. reflexivity. Qed.
Lemma backend_warn_hits : warn_hits (Backend.checks v th rates) = the_warns.
Proof. unfold Backend.checks. autorewrite with tally. reflexivity. Qed.
End Tallies.

Lemma engine_tallied v th rates : tallied v th rates (Engine.checks v th rates).
Proof.
  repeat split; [apply engine_red_hits | apply engine_warn_hits | apply engine_score].
Qed.

Lemma backend_tallied v th rates : tallied v th rates (Backend.checks v th rates).
Proof.
  repeat split; [apply backend_red_hits | apply backend_warn_hits | apply backend_score].
Qed.

(** ** The level decision *)

Lemma decide_level_by_priority (s : Tally) : by_priority s (decide_level s).
Proof.
  unfold by_priority, red_rule, orange_rule, yellow_rule, decide_level,
    level_of, reasons_of, score_of.
  destruct (Nat.leb_spec 1 (red_hits s)), (Nat.leb_spec 2 (warn_hits s)),
    (Nat.leb_spec 1 (warn_hits s));
    destruct (py_ge (clamp (score s)) 55), (py_ge (clamp (score s)) 45),
      (py_ge (clamp (score s)) 20); simpl;
    repeat split; intros; try discriminate; try lia;
    intuition (try discriminate; try lia).
Qed.

(** C1.  Whatever the vitals, thresholds and rates, [classify_level] of
    either file returns "red" exactly when [red_hits >= 1] and the clamped
    score is at least 55; failing that, "orange" exactly when [red_hits >= 1]
    or the score is at least 45 or [warn_hits >= 2]; failing that, "yellow"
    exactly when [warn_hits >= 1] or the score is at least 20; and "green"
    otherwise.  In particular red is reached through the first rule only, and
    one red hit with a score below 55 gives orange. *)
Theorem C1_level_priority (v : Vitals) (th : Thresholds) (rates : Rates) :
  let e := Engine.checks v th rates in
  let b := Backend.checks v th rates in
  (tallied v th rates e /\ by_priority e (Engine.classify_level v th rates)) /\
  (tallied v th rates b /\ by_priority b (Backend.classify_level v th rates)) /\
  ((1 <= red_hits e)%nat /\ py_ge (clamp (score e)) 55 = false ->
     level_of (Engine.classify_level v th rates) = "orange"%string) /\
  ((1 <= red_hits b)%nat /\ py_ge (clamp (score b)) 55 = false ->
     level_of (Backend.classify_level v th rates) = "orange"%string).
Proof.
  cbv zeta.
  pose proof (decide_level_by_priority (Engine.checks v th rates)) as He.
  pose proof (decide_level_by_priority (Backend.checks v th rates)) as Hb.
  split; [split; [apply engine_tallied | exact He] |].
  split; [split; [apply backend_tallied | exact Hb] |].
  split.
  - intros [Hr Hs].
    destruct He as (_ & _ & _ & Ho & _). apply Ho.
    unfold red_rule, orange_rule. rewrite Hs. split; [intros [_ H]; discriminate | now left].
  - intros [Hr Hs].
    destruct Hb as (_ & _ & _ & Ho & _). apply Ho.
    unfold red_rule, orange_rule. rewrite Hs. split; [intros [_ H]; discriminate | now left].
Qed.

(** ** Threshold tables *)

(** C7.  Whatever the profile tag, and so for each of the four tables
    (athlete, hypertensive, critical, and the normal table every other tag
    falls back to), each yellow limit is strictly less severe than the red
    one: [hr_yellow < hr_red], [spo2_yellow > spo2_red],
    [sys_yellow < sys_red], [dia_yellow < dia_red],
    [temp_yellow_hi < temp_red_hi] and [temp_yellow_lo > temp_red_lo]. *)
Theorem C7_yellow_inside_red (profile : string) :
  yellow_inside_red (patient_thresholds profile).
Proof.
  unfold patient_thresholds.
  destruct (String.eqb profile "athlete");
    [| destruct (String.eqb profile "hypertensive");
       [| destruct (String.eqb profile "critical")]];
    repeat split; reflexivity.
Qed.

(** ** The scenario of the specification *)

(** C5.  Profile "normal", heart rate 160, pressure 185/95, saturation 90,
    temperature 37.0, every rate zero: three red checks fire, the clamped
    score is 100, the level is "red", and the outcomes inferred from that
    result include the cardiac, the stroke / hypertensive and the
    respiratory one. *)
Theorem C5_scenario_normal :
  let th := patient_thresholds "normal" in
  let r := Engine.classify_level v_scenario th rates_zero in
  let names := map Engine.name
                 (Engine.infer_outcomes v_scenario (level_of r) (reasons_of r)) in
  (3 <= red_hits (Engine.checks v_scenario th rates_zero))%nat /\
  score (Engine.checks v_scenario th rates_zero) = 106 /\
  score_of r = 100 /\
  level_of r = "red"%string /\
  In "Acute cardiac event risk"%string names /\
  In "Stroke / hypertensive crisis risk"%string names /\
  In "Respiratory compromise risk"%string names.
Proof.
  vm_compute. repeat split; auto 6.
Qed.

(** ** Monotonicity in the heart rate *)

Lemma decide_level_score (s : Tally) : score_of (decide_level s) = clamp (score s).
Proof. apply decide_level_by_priority. Qed.

Lemma total_mono_hr (r1 r1' y1 y1' r2 r3 r4 t1 t2 t3 y2 y3 y4 : bool) :
  (r1 = true -> r1' = true) ->
  (y1 = true -> y1' = true) ->
  py_le (clamp (total r1 r2 r3 r4 t1 t2 t3 y1 y2 y3 y4))
        (clamp (total r1' r2 r3 r4 t1 t2 t3 y1' y2 y3 y4)) = true.
Proof.
  intros Hr Hy.
  destruct r1; [rewrite (Hr eq_refl) | destruct r1'];
    (destruct y1; [rewrite (Hy eq_refl) | destruct y1']);
    destruct r2, r3, r4, t1, t2, t3, y2, y3, y4; vm_compute; reflexivity.
Qed.

Lemma score_mono_hr (th : Thresholds) (rates : Rates) (v : Vitals) (hr' : float)
    (s s' : Tally) :
  tallied v th rates s ->
  tallied (with_heart_rate v hr') th rates s' ->
  py_le (heart_rate v) hr' = true ->
  py_le (clamp (score s)) (clamp (score s')) = true.
Proof.
  intros (_ & _ & Hs) (_ & _ & Hs') Hle. rewrite Hs, Hs'.
  apply total_mono_hr; intros H.
  - unfold c_hr_red in *. simpl. now apply py_ge_trans with (a := heart_rate v).
  - unfold c_hr_yellow in *. simpl. now apply py_ge_trans with (a := heart_rate v).
Qed.

(** C4.  With the thresholds, the rates and every other vital held fixed,
    a heart rate at least as large gives a clamped score at least as large,
    in either file. *)
Theorem C4_score_monotone_in_heart_rate
    (th : Thresholds) (rates : Rates) (v : Vitals) (hr' : float) :
  py_le (heart_rate v) hr' = true ->
  py_le (score_of (Engine.classify_level v th rates))
        (score_of (Engine.classify_level (with_heart_rate v hr') th rates)) = true /\
  py_le (score_of (Backend.classify_level v th rates))
        (score_of (Backend.classify_level (with_heart_rate v hr') th rates)) = true.
Proof.
  intros Hle. unfold Engine.classify_level, Backend.classify_level.
  rewrite !decide_level_score. split.
  - eapply score_mono_hr; eauto using engine_tallied.
  - eapply score_mono_hr; eauto using backend_tallied.
Qed.

Lemma C4_witness :
  py_le (heart_rate (mkVitals 100 120 80 97 37)) 145 = true /\
  py_le (score_of (Engine.classify_level (mkVitals 100 120 80 97 37)
                     (patient_thresholds "athlete") rates_zero))
        (score_of (Engine.classify_level
                     (with_heart_rate (mkVitals 100 120 80 97 37) 145)
                     (patient_thresholds "athlete") rates_zero)) = true.
Proof.
  split; [reflexivity |].
  apply (C4_score_monotone_in_heart_rate (patient_thresholds "athlete") rates_zero
           (mkVitals 100 120 80 97 37) 145).
  reflexivity.
Defined.

(** ** Trend boosts alone *)

Lemma count4_zero (a b c d : bool) :
  count4 a b c d = 0%nat -> a = false /\ b = false /\ c = false /\ d = false.
Proof. destruct a, b, c, d; simpl; intros H; try discriminate; auto. Qed.

Lemma decide_trend_only (v : Vitals) (th : Thresholds) (rates : Rates) (s : Tally) :
  tallied v th rates s ->
  red_hits s = 0%nat -> warn_hits s = 0%nat ->
  trend_only_result rates s (decide_level s).
Proof.
  intros (Hr & Hw & Hs) Hr0 Hw0.
  assert (Hsc : score s = trend_total rates).
  { rewrite Hr0 in Hr. rewrite Hw0 in Hw. symmetry in Hr, Hw.
    apply count4_zero in Hr, Hw.
    destruct Hr as (R1 & R2 & R3 & R4), Hw as (Y1 & Y2 & Y3 & Y4).
    rewrite R1, R2, R3, R4, Y1, Y2, Y3, Y4 in Hs. exact Hs. }
  unfold trend_only_result, decide_level, level_of, score_of.
  rewrite Hr0, Hw0, Hsc. unfold trend_total.
  destruct (c_hr_rising rates), (c_spo2_dropping rates), (c_sys_rising rates);
    vm_compute; repeat split; intros; try discriminate; reflexivity.
Qed.

(** C9.  When no red and no yellow check fires, the score is what the three
    trend boosts add up to, at most 35; the level is then never "orange" nor
    "red": it is "yellow" when that score reaches 20 and "green" otherwise.
    Such a green result can carry reasons and a non-zero score. *)
Theorem C9_trend_only (v : Vitals) (th : Thresholds) (rates : Rates) :
  red_hits (Engine.checks v th rates) = 0%nat ->
  warn_hits (Engine.checks v th rates) = 0%nat ->
  trend_only_result rates (Engine.checks v th rates)
    (Engine.classify_level v th rates) /\
  (red_hits (Backend.checks v th rates) = 0%nat /\
   warn_hits (Backend.checks v th rates) = 0%nat /\
   trend_only_result rates (Backend.checks v th rates)
     (Backend.classify_level v th rates)) /\
  (exists v0 th0 rates0,
     red_hits (Engine.checks v0 th0 rates0) = 0%nat /\
     warn_hits (Engine.checks v0 th0 rates0) = 0%nat /\
     Engine.classify_level v0 th0 rates0
       = ("green"%string, ["HR rising fast (+15.0/min)"%string], 10)).
Proof.
  intros Hr Hw.
  assert (Hr' : red_hits (Backend.checks v th rates) = 0%nat)
    by (rewrite backend_red_hits, <- (engine_red_hits v th rates); exact Hr).
  assert (Hw' : warn_hits (Backend.checks v th rates) = 0%nat)
    by (rewrite backend_warn_hits, <- (engine_warn_hits v th rates); exact Hw).
  split; [| split; [split; [exact Hr' | split; [exact Hw' |]] |]].
  - apply (decide_trend_only v th rates); auto using engine_tallied.
  - apply (decide_trend_only v th rates); auto using backend_tallied.
  - exists (mkVitals 100 130 80 97 36.8).
    exists (patient_thresholds "athlete").
    exists (mkRates 15 0 0 0).
    vm_compute. auto.
Qed.

Lemma C9_witness :
  trend_only_result (mkRates 15 0 (-2.5) 0)
    (Engine.checks (mkVitals 100 130 80 97 36.8) (patient_thresholds "athlete")
       (mkRates 15 0 (-2.5) 0))
    (Engine.classify_level (mkVitals 100 130 80 97 36.8)
       (patient_thresholds "athlete") (mkRates 15 0 (-2.5) 0)).
Proof.
  apply (C9_trend_only (mkVitals 100 130 80 97 36.8) (patient_thresholds "athlete")
           (mkRates 15 0 (-2.5) 0)); reflexivity.
Defined.

(** ** Outcome inference *)

Lemma is_orange_or_red_iff (level : string) :
  is_orange_or_red level = true <-> level = "orange"%string \/ level = "red"%string.
Proof.
  unfold is_orange_or_red. rewrite orb_true_iff, !String.eqb_eq. reflexivity.
Qed.

Lemma firstn_short {A : Type} (n : nat) (l : list A) :
  (List.length (firstn n l) <= n)%nat.
Proof.
  revert l. induction n as [| n IH]; intros [| x l]; simpl; try lia.
  specialize (IH l). lia.
Qed.

Lemma Forall_emitted {A : Type} (P : A -> Prop) (c : bool) (x : A) :
  P x -> Forall P (emitted c x).
Proof. intros H. destruct c; simpl; auto. Qed.

Lemma engine_because_short (v : Vitals) (level : string) (reasons : list string) :
  Forall (fun o => (List.length (Engine.because o) <= 3)%nat)
         (engine_rule_by_rule v level reasons).
Proof.
  pose proof (firstn_short 2 reasons) as H2.
  pose proof (firstn_short 3 reasons) as H3.
  unfold engine_rule_by_rule.
  rewrite !Forall_app. repeat split; apply Forall_emitted;
    cbv [Engine.because Engine.cardiac Engine.stroke Engine.respiratory
         Engine.sepsis Engine.fallback];
    cbn [List.length]; lia.
Qed.

Lemma backend_because_short (v : Vitals) (level : string) (reasons : list string) :
  Forall (fun o => (List.length (Backend.because o) <= 3)%nat)
         (backend_rule_by_rule v level reasons).
Proof.
  pose proof (firstn_short 2 reasons) as H2.
  pose proof (firstn_short 3 reasons) as H3.
  unfold backend_rule_by_rule.
  rewrite !Forall_app. repeat split; apply Forall_emitted;
    cbv [Backend.because Backend.cardiac Backend.stroke Backend.respiratory
         Backend.sepsis Backend.fallback];
    cbn [List.length]; lia.
Qed.

(** C6.  [infer_outcomes] evaluates its four pattern rules independently:
    the result lists, in rule order, the outcome of every rule whose
    condition holds, followed by the fallback outcome exactly when no rule
    fired and the level is "orange" or "red".  The fallback is named
    "Undifferentiated deterioration risk", has probability 0.50 and explains
    itself by the first three reasons; a rule outcome explains itself by its
    lead-in phrase and the first two reasons; so no explanation has more
    than three strings. *)
Theorem C6_infer_rule_by_rule (v : Vitals) (level : string) (reasons : list string) :
  (Engine.infer_outcomes v level reasons = engine_rule_by_rule v level reasons /\
   Backend.infer_outcomes v level reasons = backend_rule_by_rule v level reasons) /\
  (is_orange_or_red level = true <-> level = "orange"%string \/ level = "red"%string) /\
  (engine_view (Engine.fallback reasons)
     = ("Undifferentiated deterioration risk"%string, 0.50, firstn 3 reasons) /\
   backend_view (Backend.fallback reasons)
     = ("Undifferentiated deterioration risk"%string, 0.50, firstn 3 reasons)) /\
  (Engine.because (Engine.cardiac level reasons)
     = "High HR with high BP or low SpO2"%string :: firstn 2 reasons /\
   Engine.because (Engine.stroke level reasons)
     = "Severely elevated blood pressure"%string :: firstn 2 reasons /\
   Engine.because (Engine.respiratory level reasons)
     = "Low oxygen saturation"%string :: firstn 2 reasons /\
   Engine.because (Engine.sepsis level reasons)
     = "Fever + tachycardia pattern"%string :: firstn 2 reasons) /\
  (Backend.because (Backend.cardiac level reasons)
     = "High HR with high BP or low SpO2"%string :: firstn 2 reasons /\
   Backend.because (Backend.stroke level reasons)
     = "Severely elevated blood pressure"%string :: firstn 2 reasons /\
   Backend.because (Backend.respiratory level reasons)
     = "Low oxygen saturation"%string :: firstn 2 reasons /\
   Backend.because (Backend.sepsis level reasons)
     = "Fever + tachycardia pattern"%string :: firstn 2 reasons) /\
  Forall (fun o => (List.length (Engine.because o) <= 3)%nat)
         (Engine.infer_outcomes v level reasons) /\
  Forall (fun o => (List.length (Backend.because o) <= 3)%nat)
         (Backend.infer_outcomes v level reasons).
Proof.
  assert (He : Engine.infer_outcomes v level reasons = engine_rule_by_rule v level reasons).
  { unfold Engine.infer_outcomes, engine_rule_by_rule, some_rule.
    destruct (rule_cardiac v), (rule_stroke v), (rule_respiratory v), (rule_sepsis v),
      (is_orange_or_red level); reflexivity. }
  assert (Hb : Backend.infer_outcomes v level reasons = backend_rule_by_rule v level reasons).
  { unfold Backend.infer_outcomes, backend_rule_by_rule, some_rule.
    destruct (rule_cardiac v), (rule_stroke v), (rule_respiratory v), (rule_sepsis v),
      (is_orange_or_red level); reflexivity. }
  split; [split; assumption |].
  split; [apply is_orange_or_red_iff |].
  split; [split; reflexivity |].
  split; [repeat split |].
  split; [repeat split |].
  rewrite He, Hb. split; [apply engine_because_short | apply backend_because_short].
Qed.

(** ** The rolling window: rates *)

Lemma scan_ref_choice (t_now seconds : float) (l : list Entry) (ref : Entry) :
  let r := scan_ref t_now seconds l ref in
  (exists i,
      nth_error l i = Some r /\
      old_enough t_now seconds r = true /\
      forall j e, (j < i)%nat -> nth_error l j = Some e ->
                  old_enough t_now seconds e = false)
  \/
  ((forall e, In e l -> old_enough t_now seconds e = false) /\ r = ref).
Proof.
  induction l as [| [t_i v_i] rest IH]; simpl.
  - right. split; [intros e [] | reflexivity].
  - destruct (py_ge (t_now - t_i) seconds) eqn:Hage.
    + left. exists 0%nat. repeat split; [exact Hage |]. intros j e Hj. lia.
    + destruct IH as [(i & Hi & Hold & Hbefore) | (Hnone & Href)].
      * left. exists (S i). repeat split; [exact Hi | exact Hold |].
        intros [| j] e Hj He; simpl in He.
        -- injection He as <-. exact Hage.
        -- apply (Hbefore j); [lia | exact He].
      * right. split; [| exact Href].
        intros e [<- | Hin]; [exact Hage | now apply Hnone].
Qed.

Lemma last_nth_error {A : Type} (l : list A) (dflt : A) :
  l <> [] -> nth_error l (List.length l - 1) = Some (last l dflt).
Proof.
  induction l as [| x [| y l] IH]; intros Hne.
  - contradiction.
  - reflexivity.
  - specialize (IH ltac:(discriminate)).
    change (last (x :: y :: l) dflt) with (last (y :: l) dflt).
    rewrite <- IH. simpl. now rewrite Nat.sub_0_r.
Qed.

Lemma rate_body_described (d : list Entry) (key : VitalKey) (seconds : float) :
  rate_described d key seconds (rate_body d key seconds).
Proof.
  unfold rate_described, rate_body. split; intros Hlen.
  - apply Nat.ltb_lt in Hlen. now rewrite Hlen.
  - destruct (Nat.ltb_spec (List.length d) 2) as [Hlt | _]; [lia |].
    set (dflt := (0, mkVitals 0 0 0 0 0) : Entry).
    assert (Hne : d <> []) by (intros ->; simpl in Hlen; lia).
    pose proof (last_nth_error d dflt Hne) as Hlast.
    destruct (last d dflt) as [t_now v_now].
    pose proof (scan_ref_choice t_now seconds d (hd dflt d)) as Hscan.
    cbv zeta in Hscan.
    destruct (scan_ref t_now seconds d (hd dflt d)) as [t_ref v_ref].
    exists t_now, v_now, t_ref, v_ref. repeat split; [exact Hlast | ].
    destruct Hscan as [Hfound | (Hnone & Href)]; [now left | right].
    split; [exact Hnone |]. rewrite Href.
    destruct d; [contradiction | reflexivity].
Qed.

(** C2.  With fewer than two samples in the window the rate is 0.0 for every
    vital and lookback.  With two samples or more, the rate is
    [(v_now[vital] - v_ref[vital]) / max(1e-6, t_now - t_ref) * 60], where
    [(t_now, v_now)] is the most recent sample and [(t_ref, v_ref)] is the
    first sample, scanning from the oldest, whose age [t_now - t_i] is at
    least the lookback, or the oldest sample when none is that old. *)
Theorem C2_rate_per_minute (w : RollingWindow) (key : VitalKey) (seconds : float) :
  rate_described (data w) key seconds (Engine._rate_per_min w key seconds) /\
  rate_described (data w) key seconds (Backend._rate w key seconds).
Proof.
  split; apply rate_body_described.
Qed.

(** ** The rolling window: capacity and eviction *)

Lemma tl_skipn {A : Type} (k : nat) (l : list A) :
  tl (skipn k l) = skipn (S k) l.
Proof.
  revert l. induction k as [| k IH]; intros [| y l]; try reflexivity.
  apply IH.
Qed.

Lemma skipn_app_within {A : Type} (k : nat) (l1 l2 : list A) :
  (k <= List.length l1)%nat -> skipn k (l1 ++ l2) = skipn k l1 ++ l2.
Proof.
  intros Hk. rewrite skipn_app.
  replace (k - List.length l1)%nat with 0%nat by lia. reflexivity.
Qed.

Lemma deque_append_skipn {A : Type} (cap : nat) (xs : list A) (x : A) :
  deque_append cap (skipn (List.length xs - cap) xs) x
  = skipn (List.length (xs ++ [x]) - cap) (xs ++ [x]).
Proof.
  unfold deque_append.
  rewrite <- skipn_app_within by lia.
  rewrite length_skipn, !length_app. simpl.
  destruct (Nat.ltb_spec cap (List.length xs + 1 - (List.length xs - cap))) as [Hfull | Hroom].
  - rewrite tl_skipn. f_equal. lia.
  - f_equal. lia.
Qed.

Lemma fold_deque_append {A : Type} (cap : nat) (ys xs : list A) :
  fold_left (deque_append cap) ys (skipn (List.length xs - cap) xs)
  = skipn (List.length (xs ++ ys) - cap) (xs ++ ys).
Proof.
  revert xs. induction ys as [| y ys IH]; intros xs; simpl.
  - now rewrite app_nil_r.
  - rewrite deque_append_skipn, IH, <- app_assoc. reflexivity.
Qed.

Lemma fold_deque_append_empty {A : Type} (cap : nat) (ys : list A) :
  fold_left (deque_append cap) ys [] = skipn (List.length ys - cap) ys.
Proof.
  exact (fold_deque_append cap ys []).
Qed.

Lemma hd_error_skipn {A : Type} (k : nat) (l : list A) :
  hd_error (skipn k l) = nth_error l k.
Proof.
  revert l. induction k as [| k IH]; intros [| x l]; simpl; auto.
Qed.

Lemma skipn_retains_last {A : Type} (cap : nat) (xs : list A) :
  retains_last cap xs (skipn (List.length xs - cap) xs).
Proof.
  unfold retains_last. rewrite length_skipn, hd_error_skipn.
  repeat split; lia.
Qed.

Lemma engine_pushes_data (calls : list EngineCall) (w : RollingWindow) :
  maxlen (engine_pushes w calls) = maxlen w /\
  data (engine_pushes w calls)
  = fold_left (deque_append (maxlen w)) (map engine_entry calls) (data w).
Proof.
  revert w. induction calls as [| c calls IH]; intros w; simpl; [auto |].
  destruct (IH (Engine.push w (call_vitals c) (call_t_epoch c) (call_clock c)))
    as [Hm Hd].
  unfold engine_pushes in *. simpl in *. rewrite Hm, Hd. auto.
Qed.

Lemma backend_pushes_data (calls : list Entry) (w : RollingWindow) :
  maxlen (backend_pushes w calls) = maxlen w /\
  data (backend_pushes w calls) = fold_left (deque_append (maxlen w)) calls (data w).
Proof.
  revert w. induction calls as [| [t v] calls IH]; intros w; simpl; [auto |].
  destruct (IH (Backend.push w t v)) as [Hm Hd].
  unfold backend_pushes in *. simpl in *. rewrite Hm, Hd. auto.
Qed.

(** C3.  A window built with the default capacity of [src/risk_engine.py]
    has capacity 120, and whatever the pushes it never holds more than 120
    entries; for any capacity, the buffer never exceeds it, and once the
    number [n] of pushes exceeds it the oldest entries have been dropped
    first, so that the earliest entry kept is push number
    [n - capacity + 1].  The window of the backend behaves alike; its
    default capacity is 60, so that by default it holds at most 60 entries. *)
Theorem C3_fifo_eviction (cap : nat) (calls : list EngineCall) (bcalls : list Entry) :
  (maxlen Engine.init_default = 120%nat /\
   retains_last 120 (map engine_entry calls)
     (data (engine_pushes Engine.init_default calls))) /\
  retains_last cap (map engine_entry calls)
    (data (engine_pushes (Engine.init cap) calls)) /\
  (maxlen Backend.init_default = 60%nat /\
   (List.length (data (backend_pushes Backend.init_default bcalls)) <= 60)%nat) /\
  retains_last cap bcalls (data (backend_pushes (Backend.init cap) bcalls)).
Proof.
  assert (He : forall c, retains_last c (map engine_entry calls)
                 (data (engine_pushes (Engine.init c) calls))).
  { intros c. destruct (engine_pushes_data calls (Engine.init c)) as [_ ->].
    simpl. rewrite fold_deque_append_empty.
    apply skipn_retains_last. }
  assert (Hb : forall c, retains_last c bcalls
                 (data (backend_pushes (Backend.init c) bcalls))).
  { intros c. destruct (backend_pushes_data bcalls (Backend.init c)) as [_ ->].
    simpl. rewrite fold_deque_append_empty.
    apply skipn_retains_last. }
  split; [split; [reflexivity | apply He] |].
  split; [apply He |].
  split; [split; [reflexivity |] | apply Hb].
  destruct (Hb 60%nat) as [Hlen _]. exact Hlen.
Qed.
Lemma C3_witness :
  let calls := ticks 121 1 in
  let w := engine_pushes Engine.init_default calls in
  (0 < 120 < List.length (map engine_entry calls))%nat /\
  List.length (data w) = 120%nat /\
  hd_error (data w) = Some (2, sample 70).
Proof.
  cbv zeta.
  destruct (C3_fifo_eviction 120 (ticks 121 1) []) as ((_ & _ & _ & Hfull) & _).
  assert (Hn : (0 < 120 < List.length (map engine_entry (ticks 121 1)))%nat)
    by (vm_compute; lia).
  destruct (Hfull Hn) as [Hlen Hhd].
  split; [exact Hn |]. split; [exact Hlen |].
  rewrite Hhd. reflexivity.
Defined.

(** ** The rolling window: timestamps of [src/risk_engine.py] *)

Lemma Forall_tl {A : Type} (P : A -> Prop) (l : list A) :
  Forall P l -> Forall P (tl l).
Proof. intros H. destruct H; simpl; auto. Qed.

Lemma Forall_deque_append {A : Type} (P : A -> Prop) (cap : nat) (d : list A) (x : A) :
  Forall P d -> P x -> Forall P (deque_append cap d x).
Proof.
  intros Hd Hx. unfold deque_append.
  assert (H : Forall P (d ++ [x])) by (apply Forall_app; auto).
  destruct (cap <? List.length (d ++ [x]))%nat; [now apply Forall_tl | exact H].
Qed.

Lemma stamp_nonzero (t_epoch : option float) (clock : float) :
  nonzero clock -> nonzero (Engine.stamp t_epoch clock).
Proof.
  unfold nonzero, Engine.stamp, truthy. intros Hc.
  destruct t_epoch as [t |]; [| exact Hc].
  destruct (PrimFloat.eqb t 0) eqn:Ht; simpl; [exact Hc | exact Ht].
Qed.

Lemma engine_pushes_nonzero (calls : list EngineCall) (w : RollingWindow) :
  Forall (fun c => nonzero (call_clock c)) calls ->
  Forall (fun e : Entry => nonzero (fst e)) (data w) ->
  Forall (fun e : Entry => nonzero (fst e)) (data (engine_pushes w calls)).
Proof.
  revert w. induction calls as [| c calls IH]; intros w Hc Hw; [exact Hw |].
  inversion Hc as [| c' calls' Hclock Hrest]; subst.
  apply IH; [exact Hrest |].
  simpl. apply Forall_deque_append; [exact Hw |].
  now apply stamp_nonzero.
Qed.

(** C10.  [push] of [src/risk_engine.py] appends the entry stamped
    [t_epoch or time.time()]: the clock value when [t_epoch] is [None] or
    zero, and [t_epoch] itself, unchanged, when it is not zero.  As long as
    the clock does not read zero, the entry appended never has timestamp
    zero, and no window built by pushes ever holds such an entry. *)
Theorem C10_falsy_timestamp_replaced
    (w : RollingWindow) (vitals : Vitals) (t_epoch : option float) (clock : float) :
  data (Engine.push w vitals t_epoch clock)
    = deque_append (maxlen w) (data w) (Engine.stamp t_epoch clock, vitals) /\
  Engine.stamp None clock = clock /\
  Engine.stamp (Some 0) clock = clock /\
  (forall t, PrimFloat.eqb t 0 = true -> Engine.stamp (Some t) clock = clock) /\
  (forall t, nonzero t -> Engine.stamp (Some t) clock = t) /\
  (nonzero clock ->
   nonzero (Engine.stamp t_epoch clock) /\
   (Forall (fun e : Entry => nonzero (fst e)) (data w) ->
    Forall (fun e : Entry => nonzero (fst e))
           (data (Engine.push w vitals t_epoch clock)))) /\
  (forall cap calls,
     Forall (fun c => nonzero (call_clock c)) calls ->
     Forall (fun e : Entry => nonzero (fst e))
            (data (engine_pushes (Engine.init cap) calls))).
Proof.
  unfold Engine.stamp at 2 3 4 5, truthy.
  split; [reflexivity |]. split; [reflexivity |]. split; [reflexivity |].
  split; [intros t Ht; now rewrite Ht |].
  split; [intros t Ht; unfold nonzero in Ht; now rewrite Ht |].
  split.
  - intros Hc. split; [now apply stamp_nonzero |].
    intros Hw. simpl. apply Forall_deque_append; [exact Hw |].
    now apply stamp_nonzero.
  - intros cap calls Hc. apply engine_pushes_nonzero; [exact Hc | constructor].
Qed.

Lemma C10_witness :
  nonzero 1762160400 /\
  nonzero (Engine.stamp (Some 0) 1762160400) /\
  data (Engine.push Engine.init_default v_scenario (Some 0) 1762160400)
    = [(1762160400, v_scenario)].
Proof.
  destruct (C10_falsy_timestamp_replaced Engine.init_default v_scenario (Some 0)
              1762160400) as (Hpush & _ & _ & _ & _ & Hclock & _).
  split; [reflexivity |].
  split; [apply (Hclock eq_refl) |].
  rewrite Hpush. reflexivity.
Defined.

(** ** The reasons list *)

Lemma digits_head (n : Z) :
  exists a s, digits n = String a s /\ a <> "r"%char.
Proof.
  unfold digits. generalize (N.to_uint (Z.to_N n)). intros u.
  destruct u; simpl; eexists; eexists; (split; [reflexivity | discriminate]).
Qed.

Lemma fmt0_head (x : float) :
  exists a s, fmt0 x = String a s /\ a <> "r"%char.
Proof.
  unfold fmt0.
  destruct (Prim2SF x) as [sg | sg | | sg m e].
  - destruct sg; simpl; eexists; eexists; (split; [reflexivity | discriminate]).
  - destruct sg; simpl; eexists; eexists; (split; [reflexivity | discriminate]).
  - eexists; eexists; (split; [reflexivity | discriminate]).
  - destruct (magnitude m e) as [n d].
    destruct (digits_head (round_half_even n d)) as (a & s & Hd & Ha).
    rewrite Hd. destruct sg; simpl.
    + eexists; eexists; (split; [reflexivity | discriminate]).
    + exists a, s. auto.
Qed.

Section HrRedString.
Variables (v : Vitals) (th : Thresholds) (rates : Rates).

Ltac heads_differ :=
  apply String.eqb_neq; intros H; cbn [String.append] in H; discriminate H.

Lemma hr_red_not_spo2_red :
  String.eqb (msg_hr_red v th) (msg_spo2_red v th) = false.
Proof. unfold msg_hr_red, msg_spo2_red. heads_differ. Qed.

Lemma hr_red_not_bp_red :
  String.eqb (msg_hr_red v th) (msg_bp_red v th) = false.
Proof. unfold msg_hr_red, msg_bp_red. heads_differ. Qed.

Lemma hr_red_not_temp_red :
  String.eqb (msg_hr_red v th) (msg_temp_red v th) = false.
Proof. unfold msg_hr_red, msg_temp_red. heads_differ. Qed.

Lemma hr_red_not_spo2_dropping :
  String.eqb (msg_hr_red v th) (msg_spo2_dropping rates) = false.
Proof. unfold msg_hr_red, msg_spo2_dropping. heads_differ. Qed.

Lemma hr_red_not_sys_rising :
  String.eqb (msg_hr_red v th) (msg_sys_rising rates) = false.
Proof. unfold msg_hr_red, msg_sys_rising. heads_differ. Qed.

(** "HR 1.." and "HR r.." part at the fourth character. *)
Lemma hr_red_not_hr_rising :
  String.eqb (msg_hr_red v th) (msg_hr_rising rates) = false.
Proof.
  unfold msg_hr_red, msg_hr_rising.
  destruct (fmt0_head (heart_rate v)) as (a & s & -> & Ha).
  apply String.eqb_neq; intros H; cbn [String.append] in H.
  injection H as H _. now apply Ha.
Qed.

Lemma str_in_app (x : string) (l1 l2 : list string) :
  str_in x (l1 ++ l2) = str_in x l1 || str_in x l2.
Proof. apply existsb_app. Qed.

Lemma str_in_said (x : string) (c : bool) (m : string) :
  str_in x (said c m) = c && String.eqb x m.
Proof. destruct c; simpl; [now rewrite orb_false_r | reflexivity]. Qed.

(** Before the yellow checks run, the red heart-rate string is in the list
    exactly when the red heart-rate check fired. *)
Lemma hr_red_seen :
  str_in (msg_hr_red v th) (red_and_trend_reasons v th rates) = c_hr_red v th.
Proof.
  unfold red_and_trend_reasons.
  rewrite !str_in_app, !str_in_said.
  rewrite String.eqb_refl, hr_red_not_spo2_red, hr_red_not_bp_red,
    hr_red_not_temp_red, hr_red_not_hr_rising, hr_red_not_spo2_dropping,
    hr_red_not_sys_rising.
  rewrite !andb_false_r, andb_true_r, !orb_false_r. reflexivity.
Qed.

Lemma engine_reasons :
  reasons (Engine.checks v th rates) = reasons_all_checks v th rates.
Proof.
  unfold Engine.checks.
  rewrite !reasons_warn, !reasons_boost, !reasons_red. simpl reasons.
  unfold reasons_all_checks, red_and_trend_reasons, later_yellow_reasons.
  rewrite <- !app_assoc. reflexivity.
Qed.

Lemma backend_reasons :
  reasons (Backend.checks v th rates) = reasons_hr_deduplicated v th rates.
Proof.
  unfold Backend.checks.
  rewrite !reasons_warn, reasons_warn_unless, !reasons_boost, !reasons_red.
  simpl reasons.
  replace (((((((([] ++ said (c_hr_red v th) (msg_hr_red v th))
            ++ said (c_spo2_red v th) (msg_spo2_red v th))
            ++ said (c_bp_red v th) (msg_bp_red v th))
            ++ said (c_temp_red v th) (msg_temp_red v th))
            ++ said (c_hr_rising rates) (msg_hr_rising rates))
            ++ said (c_spo2_dropping rates) (msg_spo2_dropping rates))
            ++ said (c_sys_rising rates) (msg_sys_rising rates)))
    with (red_and_trend_reasons v th rates)
    by (unfold red_and_trend_reasons; rewrite <- !app_assoc; reflexivity).
  rewrite hr_red_seen.
  unfold reasons_hr_deduplicated, later_yellow_reasons.
  rewrite <- !app_assoc. reflexivity.
Qed.
End HrRedString.

Lemma decide_level_reasons (s : Tally) : reasons_of (decide_level s) = reasons s.
Proof. apply decide_level_by_priority. Qed.

(** C8, as stated, fails for [src/risk_engine.py]: in the scenario of the
    specification the red heart-rate string is in the list and the
    heart-rate warning is appended all the same. *)
Lemma C8_counterexample :
  let th := patient_thresholds "normal" in
  let rs := reasons_of (Engine.classify_level v_scenario th rates_zero) in
  msg_hr_red v_scenario th = "HR 160 >= 150"%string /\
  msg_hr_yellow v_scenario th = "HR 160 >= 110 (warning)"%string /\
  In (msg_hr_red v_scenario th) rs /\
  In (msg_hr_yellow v_scenario th) rs.
Proof.
  vm_compute. repeat split; auto 6.
Qed.

(** C8, amended.  In both files the reasons list follows the evaluation
    order: red checks, then trend boosts, then yellow checks.  In
    [src/backend-python/app/risk_engine.py] the heart-rate warning appends
    its reason unless the red heart-rate string is already in the list,
    which is the case exactly when the red heart-rate check fired, and
    every other triggered check appends its reason.  In
    [src/risk_engine.py] there is no such test: every triggered check,
    the heart-rate warning included, appends its reason. *)
Theorem C8_reasons_in_order (v : Vitals) (th : Thresholds) (rates : Rates) :
  reasons_of (Backend.classify_level v th rates) = reasons_hr_deduplicated v th rates /\
  str_in (msg_hr_red v th) (red_and_trend_reasons v th rates) = c_hr_red v th /\
  reasons_of (Engine.classify_level v th rates) = reasons_all_checks v th rates.
Proof.
  unfold Backend.classify_level, Engine.classify_level.
  rewrite !decide_level_reasons.
  split; [apply backend_reasons |].
  split; [apply hr_red_seen | apply engine_reasons].
Qed.


(** ** Worked examples *)

(** The formats round to nearest, ties to even, and keep the sign. *)
Example fmt_samples :
  [fmt0 160; fmt0 0.5; fmt0 1.5; fmt0 (-2.5); fmt0 (-0.4); fmt1 36.8; fmt1 12.34;
   fmt1 0.25]
  = ["160"; "0"; "2"; "-2"; "-0"; "36.8"; "12.3"; "0.2"]%string.
Proof. reflexivity. Qed.

(** A window of capacity 2 after three pushes holds the last two, and the
    falsy timestamps of the second and third call were replaced by the clock. *)
Example eviction_at_capacity_2 :
  data (engine_pushes (Engine.init 2)
          [mkCall (sample 1) (Some 10) 99; mkCall (sample 2) None 99;
           mkCall (sample 3) (Some 0) 100])
  = [(99, sample 2); (100, sample 3)].
Proof. reflexivity. Qed.

(** The scan stops at the first entry that is old enough, here the second
    one; with ordered timestamps it would be the oldest. *)
Example rate_picks_first_old_enough :
  rate_body [(50, sample 80); (0, sample 90); (60, sample 100)] k_heart_rate 30 = 10 /\
  rate_body [(0, sample 80); (30, sample 90); (60, sample 100)] k_heart_rate 60 = 20 /\
  rate_body [(0, sample 80); (30, sample 90); (60, sample 100)] k_heart_rate 300 = 20 /\
  rate_body [(60, sample 80)] k_heart_rate 60 = 0.
Proof. repeat split; reflexivity. Qed.

(** One red hit with a low score: orange in both files, and only the
    backend drops the heart-rate warning from the reasons. *)
Example athlete_hr_150 :
  Backend.classify_level (sample 150) (patient_thresholds "athlete") rates_zero
    = ("orange", ["HR 150 >= 140"], 33)%string /\
  Engine.classify_level (sample 150) (patient_thresholds "athlete") rates_zero
    = ("orange", ["HR 150 >= 140"; "HR 150 >= 105 (warning)"], 33)%string.
Proof. split; reflexivity. Qed.

(** Below every athlete threshold with no trend: green, score 0, no reason. *)
Example athlete_all_clear :
  Engine.classify_level (mkVitals 100 130 80 97 36.8) (patient_thresholds "athlete")
    rates_zero
  = ("green"%string, [], 0).
Proof. reflexivity. Qed.


(** * Further properties *)

(** ** More on the order of floats *)

Lemma SFcompare_refl (a : spec_float) :
  SFcompare a a = Some Eq \/ SFcompare a a = None.
Proof.
  destruct a as [s | s | | s m e]; simpl; auto.
  - destruct s; auto.
  - destruct s; rewrite Z.compare_refl, Pos.compare_cont_refl; auto.
Qed.

Lemma SFleb_refl_l (a b : spec_float) : SFleb a b = true -> SFleb a a = true.
Proof.
  unfold SFleb. intros H.
  destruct (SFcompare_refl a) as [-> | Hn]; [reflexivity |].
  destruct a; try discriminate Hn; simpl in H; try discriminate H;
    destruct s; simpl in Hn; try discriminate Hn;
    rewrite Z.compare_refl, Pos.compare_cont_refl in Hn; discriminate Hn.
Qed.

Lemma SFleb_refl_r (a b : spec_float) : SFleb a b = true -> SFleb b b = true.
Proof.
  unfold SFleb. intros H.
  destruct (SFcompare_refl b) as [-> | Hn]; [reflexivity |].
  destruct b; try discriminate Hn;
    try (destruct a; simpl in H; discriminate H);
    destruct s; simpl in Hn; try discriminate Hn;
    rewrite Z.compare_refl, Pos.compare_cont_refl in Hn; discriminate Hn.
Qed.

Lemma leb_trans (a b c : float) :
  PrimFloat.leb a b = true -> PrimFloat.leb b c = true -> PrimFloat.leb a c = true.
Proof. rewrite !leb_spec. apply SFleb_trans. Qed.

Lemma ltb_leb (a b : float) : PrimFloat.ltb a b = true -> PrimFloat.leb a b = true.
Proof.
  rewrite ltb_spec, leb_spec. unfold SFltb, SFleb.
  destruct (SFcompare (Prim2SF a) (Prim2SF b)) as [[| |] |]; auto.
Qed.

Lemma leb_refl_l (a b : float) : PrimFloat.leb a b = true -> PrimFloat.leb a a = true.
Proof. rewrite !leb_spec. apply SFleb_refl_l. Qed.

Lemma leb_refl_r (a b : float) : PrimFloat.leb a b = true -> PrimFloat.leb b b = true.
Proof. rewrite !leb_spec. apply SFleb_refl_r. Qed.

(** ** The clamp of the simulator and of the score *)

(** X1.  [_clamp(x, lo, hi)] with [lo <= hi] lies between [lo] and [hi] for
    every [x], NaN included; it returns [x] itself when [lo < x < hi]; and
    clamping twice is clamping once, whatever the bounds. *)
Theorem X1_clamp_within_bounds (x lo hi : float) :
  (py_le lo hi = true ->
   py_le lo (_clamp x lo hi) = true /\ py_le (_clamp x lo hi) hi = true) /\
  (py_lt lo x = true -> py_lt x hi = true -> _clamp x lo hi = x) /\
  _clamp (_clamp x lo hi) lo hi = _clamp x lo hi.
Proof.
  unfold _clamp, py_max, py_min, py_gt, py_lt, py_le.
  split; [| split].
  - intros Hb.
    pose proof (leb_refl_l _ _ Hb) as Hlo. pose proof (leb_refl_r _ _ Hb) as Hhi.
    destruct (PrimFloat.ltb x hi) eqn:Hx.
    + destruct (PrimFloat.ltb lo x) eqn:Hl; split; auto using ltb_leb.
    + destruct (PrimFloat.ltb lo hi) eqn:Hl; split; auto.
  - intros Hl Hx. now rewrite Hx, Hl.
  - destruct (PrimFloat.ltb x hi) eqn:Hx.
    + destruct (PrimFloat.ltb lo x) eqn:Hl.
      * now rewrite Hx, Hl.
      * destruct (PrimFloat.ltb lo hi) eqn:Hlh.
        -- now destruct (PrimFloat.ltb lo lo).
        -- now rewrite Hlh.
    + destruct (PrimFloat.ltb lo hi) eqn:Hlh.
      * destruct (PrimFloat.ltb hi hi); now rewrite Hlh.
      * destruct (PrimFloat.ltb lo hi) eqn:Hlh'; [discriminate |].
        now rewrite Hlh'.
Qed.

Lemma X1_witness :
  py_le 40 190 = true /\
  py_le 40 (_clamp nan 40 190) = true /\ py_le (_clamp nan 40 190) 190 = true.
Proof.
  split; [reflexivity |].
  destruct (X1_clamp_within_bounds nan 40 190) as (Hb & _).
  apply Hb. reflexivity.
Defined.

Lemma clamp_within (x : float) :
  py_le 0 (clamp x) = true /\ py_le (clamp x) 100 = true.
Proof.
  unfold clamp, py_max, py_min, py_gt, py_lt, py_le.
  destruct (PrimFloat.ltb x 100) eqn:Hx.
  - destruct (PrimFloat.ltb 0 x) eqn:Hl; split; auto using ltb_leb.
  - split; reflexivity.
Qed.


(** ** More on the classifier *)

Lemma tally_eta (s : Tally) :
  s = mkTally (reasons s) (score s) (red_hits s) (warn_hits s).
Proof. destruct s; reflexivity. Qed.

Lemma decide_level_numeric (s : Tally) :
  level_of (decide_level s)
    = level_of (decide_level (mkTally [] (score s) (red_hits s) (warn_hits s))) /\
  score_of (decide_level s)
    = score_of (decide_level (mkTally [] (score s) (red_hits s) (warn_hits s))).
Proof.
  destruct s as [rs sc rh wh]. unfold decide_level, level_of, score_of.
  cbn [reasons score red_hits warn_hits].
  destruct ((1 <=? rh)%nat && py_ge (clamp sc) 55);
    [| destruct ((1 <=? rh)%nat || py_ge (clamp sc) 45 || (2 <=? wh)%nat);
       [| destruct ((1 <=? wh)%nat || py_ge (clamp sc) 20)]];
    split; reflexivity.
Qed.

Lemma tallied_level (v : Vitals) (th : Thresholds) (rates : Rates) (s : Tally) :
  tallied v th rates s ->
  level_of (decide_level s)
  = level_at (c_hr_red v th) (c_spo2_red v th) (c_bp_red v th) (c_temp_red v th)
             (c_hr_rising rates) (c_spo2_dropping rates) (c_sys_rising rates)
             (c_hr_yellow v th) (c_spo2_yellow v th) (c_bp_yellow v th)
             (c_temp_yellow v th).
Proof.
  intros (Hr & Hw & Hs).
  destruct (decide_level_numeric s) as [-> _]. unfold level_at.
  now rewrite Hr, Hw, Hs.
Qed.

(** X2.  Whatever the vitals, thresholds and rates (NaN included), the score
    returned by [classify_level] lies between 0 and 100, in either file. *)
Theorem X2_score_between_0_and_100 (v : Vitals) (th : Thresholds) (rates : Rates) :
  (py_le 0 (score_of (Engine.classify_level v th rates)) = true /\
   py_le (score_of (Engine.classify_level v th rates)) 100 = true) /\
  (py_le 0 (score_of (Backend.classify_level v th rates)) = true /\
   py_le (score_of (Backend.classify_level v th rates)) 100 = true).
Proof.
  unfold Engine.classify_level, Backend.classify_level.
  rewrite !decide_level_score. split; apply clamp_within.
Qed.

Lemma engine_checks_eq (v : Vitals) (th : Thresholds) (rates : Rates) :
  Engine.checks v th rates
  = mkTally (reasons_all_checks v th rates)
      (total (c_hr_red v th) (c_spo2_red v th) (c_bp_red v th) (c_temp_red v th)
             (c_hr_rising rates) (c_spo2_dropping rates) (c_sys_rising rates)
             (c_hr_yellow v th) (c_spo2_yellow v th) (c_bp_yellow v th)
             (c_temp_yellow v th))
      (count4 (c_hr_red v th) (c_spo2_red v th) (c_bp_red v th) (c_temp_red v th))
      (count4 (c_hr_yellow v th) (c_spo2_yellow v th) (c_bp_yellow v th)
              (c_temp_yellow v th)).
Proof.
  rewrite (tally_eta (Engine.checks v th rates)).
  now rewrite engine_reasons, engine_score, engine_red_hits, engine_warn_hits.
Qed.

Lemma backend_checks_eq (v : Vitals) (th : Thresholds) (rates : Rates) :
  Backend.checks v th rates
  = mkTally (reasons_hr_deduplicated v th rates)
      (total (c_hr_red v th) (c_spo2_red v th) (c_bp_red v th) (c_temp_red v th)
             (c_hr_rising rates) (c_spo2_dropping rates) (c_sys_rising rates)
             (c_hr_yellow v th) (c_spo2_yellow v th) (c_bp_yellow v th)
             (c_temp_yellow v th))
      (count4 (c_hr_red v th) (c_spo2_red v th) (c_bp_red v th) (c_temp_red v th))
      (count4 (c_hr_yellow v th) (c_spo2_yellow v th) (c_bp_yellow v th)
              (c_temp_yellow v th)).
Proof.
  rewrite (tally_eta (Backend.checks v th rates)).
  now rewrite backend_reasons, backend_score, backend_red_hits, backend_warn_hits.
Qed.

Lemma said_nil (c : bool) (m : string) : said c m = [] <-> c = false.
Proof. destruct c; simpl; split; intros H; (discriminate H || reflexivity). Qed.

Lemma app_nil_iff {A : Type} (l1 l2 : list A) :
  l1 ++ l2 = [] <-> l1 = [] /\ l2 = [].
Proof.
  split; [apply app_eq_nil | intros [-> ->]; reflexivity].
Qed.

Lemma some_check_false (v : Vitals) (th : Thresholds) (rates : Rates) :
  some_check v th rates = false <->
  c_hr_red v th = false /\ c_spo2_red v th = false /\ c_bp_red v th = false /\
  c_temp_red v th = false /\ c_hr_rising rates = false /\
  c_spo2_dropping rates = false /\ c_sys_rising rates = false /\
  c_hr_yellow v th = false /\ c_spo2_yellow v th = false /\
  c_bp_yellow v th = false /\ c_temp_yellow v th = false.
Proof.
  unfold some_check. rewrite !orb_false_iff. tauto.
Qed.

(** X3.  The reasons list is empty exactly when none of the eleven checks
    fires, in either file; the result is then "green" with score 0. *)
Theorem X3_no_reason_iff_no_check (v : Vitals) (th : Thresholds) (rates : Rates) :
  (reasons_of (Engine.classify_level v th rates) = [] <-> some_check v th rates = false) /\
  (reasons_of (Backend.classify_level v th rates) = [] <-> some_check v th rates = false) /\
  (some_check v th rates = false ->
   Engine.classify_level v th rates = ("green"%string, [], 0) /\
   Backend.classify_level v th rates = ("green"%string, [], 0)).
Proof.
  unfold Engine.classify_level, Backend.classify_level.
  rewrite !decide_level_reasons, engine_checks_eq, backend_checks_eq.
  cbn [reasons]. rewrite some_check_false.
  unfold reasons_all_checks, reasons_hr_deduplicated, red_and_trend_reasons,
    later_yellow_reasons.
  rewrite !app_nil_iff, !said_nil.
  split; [tauto |]. split.
  - destruct (c_hr_red v th), (c_hr_yellow v th); simpl; tauto.
  - intros (R1 & R2 & R3 & R4 & T1 & T2 & T3 & Y1 & Y2 & Y3 & Y4).
    rewrite R1, R2, R3, R4, T1, T2, T3, Y1, Y2, Y3, Y4.
    split; reflexivity.
Qed.

Lemma count4_pos (a b c d : bool) :
  a || b || c || d = true -> (1 <= count4 a b c d)%nat.
Proof. destruct a, b, c, d; simpl; intros H; try discriminate H; lia. Qed.

Lemma decide_level_red_hit (s : Tally) :
  (1 <= red_hits s)%nat -> is_orange_or_red (level_of (decide_level s)) = true.
Proof.
  intros H. unfold decide_level, level_of.
  destruct (Nat.leb_spec 1 (red_hits s)) as [_ | Hlt]; [| lia].
  destruct (py_ge (clamp (score s)) 55); reflexivity.
Qed.

Lemma decide_level_two_warnings (s : Tally) :
  (2 <= warn_hits s)%nat -> is_orange_or_red (level_of (decide_level s)) = true.
Proof.
  intros H. unfold decide_level, level_of.
  destruct (Nat.leb_spec 2 (warn_hits s)) as [_ | Hlt]; [| lia].
  destruct ((1 <=? red_hits s)%nat && py_ge (clamp (score s)) 55); [reflexivity |].
  rewrite orb_true_r. reflexivity.
Qed.

(** X4.  When a red limit is crossed (heart rate, saturation, either
    pressure, or temperature on either side), the level is "orange" or
    "red", never "green" or "yellow", whatever the rest of the input. *)
Theorem X4_red_limit_gives_orange_or_red (v : Vitals) (th : Thresholds) (rates : Rates) :
  some_red v th = true ->
  is_orange_or_red (level_of (Engine.classify_level v th rates)) = true /\
  is_orange_or_red (level_of (Backend.classify_level v th rates)) = true.
Proof.
  intros H. apply count4_pos in H.
  unfold Engine.classify_level, Backend.classify_level.
  split; apply decide_level_red_hit.
  - now rewrite engine_red_hits.
  - now rewrite backend_red_hits.
Qed.

Lemma X4_witness :
  some_red (sample 150) (patient_thresholds "athlete") = true /\
  is_orange_or_red
    (level_of (Engine.classify_level (sample 150) (patient_thresholds "athlete")
                 rates_zero)) = true.
Proof.
  split; [reflexivity |].
  apply (X4_red_limit_gives_orange_or_red (sample 150) (patient_thresholds "athlete")
           rates_zero).
  reflexivity.
Defined.

(** X5.  The two files classify alike: level and score always coincide, and
    so does the whole result unless the red and the yellow heart-rate checks
    both fire, in which case the list of [src/risk_engine.py] is longer by
    exactly one string. *)
Theorem X5_engine_and_backend_agree (v : Vitals) (th : Thresholds) (rates : Rates) :
  level_of (Engine.classify_level v th rates)
    = level_of (Backend.classify_level v th rates) /\
  score_of (Engine.classify_level v th rates)
    = score_of (Backend.classify_level v th rates) /\
  (c_hr_red v th && c_hr_yellow v th = false ->
   Engine.classify_level v th rates = Backend.classify_level v th rates) /\
  (c_hr_red v th && c_hr_yellow v th = true ->
   List.length (reasons_of (Engine.classify_level v th rates))
   = S (List.length (reasons_of (Backend.classify_level v th rates)))).
Proof.
  unfold Engine.classify_level, Backend.classify_level.
  rewrite !decide_level_reasons.
  destruct (decide_level_numeric (Engine.checks v th rates)) as [-> ->].
  destruct (decide_level_numeric (Backend.checks v th rates)) as [-> ->].
  rewrite engine_checks_eq, backend_checks_eq. cbn [reasons score red_hits warn_hits].
  split; [reflexivity |]. split; [reflexivity |].
  unfold reasons_all_checks, reasons_hr_deduplicated. split; intros H.
  - assert (Hy : c_hr_yellow v th && negb (c_hr_red v th) = c_hr_yellow v th)
      by (destruct (c_hr_red v th), (c_hr_yellow v th); simpl in *; congruence).
    now rewrite Hy.
  - apply andb_true_iff in H. destruct H as [Hr Hy]. rewrite Hr, Hy.
    cbn [andb negb said]. rewrite !length_app. simpl. lia.
Qed.

(** ** Red limits inside yellow limits *)

Lemma tables_yellow_inside_red (profile : string) :
  yellow_inside_red (patient_thresholds profile).
Proof.
  unfold patient_thresholds.
  destruct (String.eqb profile "athlete");
    [| destruct (String.eqb profile "hypertensive");
       [| destruct (String.eqb profile "critical")]];
    repeat split; reflexivity.
Qed.

Lemma red_check_implies_yellow (v : Vitals) (th : Thresholds) :
  yellow_inside_red th ->
  (c_hr_red v th = true -> c_hr_yellow v th = true) /\
  (c_spo2_red v th = true -> c_spo2_yellow v th = true) /\
  (c_bp_red v th = true -> c_bp_yellow v th = true) /\
  (c_temp_red v th = true -> c_temp_yellow v th = true).
Proof.
  unfold yellow_inside_red, py_lt, py_gt.
  intros (Hhr & Hsp & Hsy & Hdi & Hth & Htl).
  apply ltb_leb in Hhr, Hsp, Hsy, Hdi, Hth, Htl.
  unfold c_hr_red, c_hr_yellow, c_spo2_red, c_spo2_yellow, c_bp_red, c_bp_yellow,
    c_temp_red, c_temp_yellow, py_ge, py_le.
  repeat split; intros H.
  - eapply leb_trans; eassumption.
  - eapply leb_trans; eassumption.
  - apply orb_true_iff in H. apply orb_true_iff.
    destruct H as [H | H]; [left | right]; eapply leb_trans; eassumption.
  - apply orb_true_iff in H. apply orb_true_iff.
    destruct H as [H | H]; [left | right]; eapply leb_trans; eassumption.
Qed.

Lemma count4_le (a b c d a' b' c' d' : bool) :
  (a = true -> a' = true) -> (b = true -> b' = true) ->
  (c = true -> c' = true) -> (d = true -> d' = true) ->
  (count4 a b c d <= count4 a' b' c' d')%nat.
Proof.
  intros Ha Hb Hc Hd.
  destruct a; [rewrite (Ha eq_refl) | destruct a'];
    (destruct b; [rewrite (Hb eq_refl) | destruct b']);
    (destruct c; [rewrite (Hc eq_refl) | destruct c']);
    (destruct d; [rewrite (Hd eq_refl) | destruct d']); simpl; lia.
Qed.

(** X6.  With the thresholds of any profile, a red check that fires makes
    the yellow check of the same vital fire too, so the warning count is
    never below the red count. *)
Theorem X6_red_check_implies_yellow_check
    (profile : string) (v : Vitals) (rates : Rates) :
  let th := patient_thresholds profile in
  ((c_hr_red v th = true -> c_hr_yellow v th = true) /\
   (c_spo2_red v th = true -> c_spo2_yellow v th = true) /\
   (c_bp_red v th = true -> c_bp_yellow v th = true) /\
   (c_temp_red v th = true -> c_temp_yellow v th = true)) /\
  (red_hits (Engine.checks v th rates) <= warn_hits (Engine.checks v th rates))%nat /\
  (red_hits (Backend.checks v th rates) <= warn_hits (Backend.checks v th rates))%nat.
Proof.
  intros th.
  pose proof (red_check_implies_yellow v th (tables_yellow_inside_red profile)) as H.
  split; [exact H |].
  rewrite engine_red_hits, engine_warn_hits, backend_red_hits, backend_warn_hits.
  destruct H as (H1 & H2 & H3 & H4).
  split; apply count4_le; assumption.
Qed.

(** ** Monotonicity of score and level *)

Ltac flip_pair a a' Ha b b' Hb :=
  destruct a; [rewrite (Ha eq_refl) | destruct a'];
  (destruct b; [rewrite (Hb eq_refl) | destruct b']).

Lemma level_mono_hr_flags (r1 r1' y1 y1' r2 r3 r4 t1 t2 t3 y2 y3 y4 : bool) :
  (r1 = true -> r1' = true) -> (y1 = true -> y1' = true) ->
  (level_rank (level_at r1 r2 r3 r4 t1 t2 t3 y1 y2 y3 y4)
   <= level_rank (level_at r1' r2 r3 r4 t1 t2 t3 y1' y2 y3 y4))%nat.
Proof.
  intros Hr Hy. flip_pair r1 r1' Hr y1 y1' Hy;
    destruct r2, r3, r4, t1, t2, t3, y2, y3, y4; vm_compute; lia.
Qed.

Lemma mono_spo2_flags (r2 r2' y2 y2' r1 r3 r4 t1 t2 t3 y1 y3 y4 : bool) :
  (r2 = true -> r2' = true) -> (y2 = true -> y2' = true) ->
  py_le (clamp (total r1 r2 r3 r4 t1 t2 t3 y1 y2 y3 y4))
        (clamp (total r1 r2' r3 r4 t1 t2 t3 y1 y2' y3 y4)) = true /\
  (level_rank (level_at r1 r2 r3 r4 t1 t2 t3 y1 y2 y3 y4)
   <= level_rank (level_at r1 r2' r3 r4 t1 t2 t3 y1 y2' y3 y4))%nat.
Proof.
  intros Hr Hy. flip_pair r2 r2' Hr y2 y2' Hy;
    destruct r1, r3, r4, t1, t2, t3, y1, y3, y4; vm_compute; split; (reflexivity || lia).
Qed.

Lemma mono_bp_flags (r3 r3' y3 y3' r1 r2 r4 t1 t2 t3 y1 y2 y4 : bool) :
  (r3 = true -> r3' = true) -> (y3 = true -> y3' = true) ->
  py_le (clamp (total r1 r2 r3 r4 t1 t2 t3 y1 y2 y3 y4))
        (clamp (total r1 r2 r3' r4 t1 t2 t3 y1 y2 y3' y4)) = true /\
  (level_rank (level_at r1 r2 r3 r4 t1 t2 t3 y1 y2 y3 y4)
   <= level_rank (level_at r1 r2 r3' r4 t1 t2 t3 y1 y2 y3' y4))%nat.
Proof.
  intros Hr Hy. flip_pair r3 r3' Hr y3 y3' Hy;
    destruct r1, r2, r4, t1, t2, t3, y1, y2, y4; vm_compute; split; (reflexivity || lia).
Qed.

(** X7.  With everything else held fixed, a heart rate at least as large
    never gives a lower level (green < yellow < orange < red), in either
    file. *)
Theorem X7_level_monotone_in_heart_rate
    (th : Thresholds) (rates : Rates) (v : Vitals) (hr' : float) :
  py_le (heart_rate v) hr' = true ->
  (level_rank (level_of (Engine.classify_level v th rates))
   <= level_rank (level_of (Engine.classify_level (with_heart_rate v hr') th rates)))%nat /\
  (level_rank (level_of (Backend.classify_level v th rates))
   <= level_rank (level_of (Backend.classify_level (with_heart_rate v hr') th rates)))%nat.
Proof.
  intros Hle. unfold Engine.classify_level, Backend.classify_level.
  rewrite (tallied_level _ _ _ _ (engine_tallied v th rates)),
    (tallied_level _ _ _ _ (engine_tallied (with_heart_rate v hr') th rates)),
    (tallied_level _ _ _ _ (backend_tallied v th rates)),
    (tallied_level _ _ _ _ (backend_tallied (with_heart_rate v hr') th rates)).
  assert (Hr : c_hr_red v th = true -> c_hr_red (with_heart_rate v hr') th = true)
    by (unfold c_hr_red; simpl; intros H; now apply py_ge_trans with (a := heart_rate v)).
  assert (Hy : c_hr_yellow v th = true -> c_hr_yellow (with_heart_rate v hr') th = true)
    by (unfold c_hr_yellow; simpl; intros H; now apply py_ge_trans with (a := heart_rate v)).
  split; apply level_mono_hr_flags; assumption.
Qed.

Lemma X7_witness :
  py_le (heart_rate (sample 100)) 150 = true /\
  (level_rank (level_of (Engine.classify_level (sample 100)
                           (patient_thresholds "athlete") rates_zero))
   <= level_rank (level_of (Engine.classify_level (with_heart_rate (sample 100) 150)
                              (patient_thresholds "athlete") rates_zero)))%nat.
Proof.
  split; [reflexivity |].
  apply (X7_level_monotone_in_heart_rate (patient_thresholds "athlete") rates_zero
           (sample 100) 150).
  reflexivity.
Defined.

(** X8.  With everything else held fixed, an oxygen saturation at most as
    large never gives a lower score nor a lower level, in either file. *)
Theorem X8_lower_saturation_never_lowers_risk
    (th : Thresholds) (rates : Rates) (v : Vitals) (s' : float) :
  py_le s' (oxygen_saturation v) = true ->
  let v' := with_oxygen_saturation v s' in
  (py_le (score_of (Engine.classify_level v th rates))
         (score_of (Engine.classify_level v' th rates)) = true /\
   (level_rank (level_of (Engine.classify_level v th rates))
    <= level_rank (level_of (Engine.classify_level v' th rates)))%nat) /\
  (py_le (score_of (Backend.classify_level v th rates))
         (score_of (Backend.classify_level v' th rates)) = true /\
   (level_rank (level_of (Backend.classify_level v th rates))
    <= level_rank (level_of (Backend.classify_level v' th rates)))%nat).
Proof.
  intros Hle v'. unfold Engine.classify_level, Backend.classify_level.
  rewrite !decide_level_score.
  rewrite (tallied_level _ _ _ _ (engine_tallied v th rates)),
    (tallied_level _ _ _ _ (engine_tallied v' th rates)),
    (tallied_level _ _ _ _ (backend_tallied v th rates)),
    (tallied_level _ _ _ _ (backend_tallied v' th rates)).
  rewrite !engine_score, !backend_score.
  assert (Hr : c_spo2_red v th = true -> c_spo2_red v' th = true)
    by (unfold c_spo2_red, py_le in *; simpl; intros H;
        now apply leb_trans with (b := oxygen_saturation v)).
  assert (Hy : c_spo2_yellow v th = true -> c_spo2_yellow v' th = true)
    by (unfold c_spo2_yellow, py_le in *; simpl; intros H;
        now apply leb_trans with (b := oxygen_saturation v)).
  split; apply mono_spo2_flags; assumption.
Qed.

Lemma X8_witness :
  py_le 89 (oxygen_saturation (sample 100)) = true /\
  py_le (score_of (Engine.classify_level (sample 100)
                     (patient_thresholds "normal") rates_zero))
        (score_of (Engine.classify_level (with_oxygen_saturation (sample 100) 89)
                     (patient_thresholds "normal") rates_zero)) = true.
Proof.
  split; [reflexivity |].
  apply (X8_lower_saturation_never_lowers_risk (patient_thresholds "normal") rates_zero
           (sample 100) 89).
  reflexivity.
Defined.

(** X9.  With everything else held fixed, a systolic and a diastolic
    pressure that are each at least as large never give a lower score nor a
    lower level, in either file. *)
Theorem X9_higher_pressure_never_lowers_risk
    (th : Thresholds) (rates : Rates) (v : Vitals) (sys' dia' : float) :
  py_le (bp_systolic v) sys' = true ->
  py_le (bp_diastolic v) dia' = true ->
  let v' := with_bp_systolic (with_bp_diastolic v dia') sys' in
  (py_le (score_of (Engine.classify_level v th rates))
         (score_of (Engine.classify_level v' th rates)) = true /\
   (level_rank (level_of (Engine.classify_level v th rates))
    <= level_rank (level_of (Engine.classify_level v' th rates)))%nat) /\
  (py_le (score_of (Backend.classify_level v th rates))
         (score_of (Backend.classify_level v' th rates)) = true /\
   (level_rank (level_of (Backend.classify_level v th rates))
    <= level_rank (level_of (Backend.classify_level v' th rates)))%nat).
Proof.
  intros Hs Hd v'. unfold Engine.classify_level, Backend.classify_level.
  rewrite !decide_level_score.
  rewrite (tallied_level _ _ _ _ (engine_tallied v th rates)),
    (tallied_level _ _ _ _ (engine_tallied v' th rates)),
    (tallied_level _ _ _ _ (backend_tallied v th rates)),
    (tallied_level _ _ _ _ (backend_tallied v' th rates)).
  rewrite !engine_score, !backend_score.
  assert (Hr : c_bp_red v th = true -> c_bp_red v' th = true).
  { unfold c_bp_red. simpl. rewrite !orb_true_iff.
    intros [H | H]; [left | right].
    - now apply py_ge_trans with (a := bp_systolic v).
    - now apply py_ge_trans with (a := bp_diastolic v). }
  assert (Hy : c_bp_yellow v th = true -> c_bp_yellow v' th = true).
  { unfold c_bp_yellow. simpl. rewrite !orb_true_iff.
    intros [H | H]; [left | right].
    - now apply py_ge_trans with (a := bp_systolic v).
    - now apply py_ge_trans with (a := bp_diastolic v). }
  split; apply mono_bp_flags; assumption.
Qed.

Lemma X9_witness :
  py_le (bp_systolic (sample 100)) 185 = true /\
  py_le (bp_diastolic (sample 100)) 80 = true /\
  py_le (score_of (Engine.classify_level (sample 100)
                     (patient_thresholds "normal") rates_zero))
        (score_of (Engine.classify_level
                     (with_bp_systolic (with_bp_diastolic (sample 100) 80) 185)
                     (patient_thresholds "normal") rates_zero)) = true.
Proof.
  split; [reflexivity |]. split; [reflexivity |].
  apply (X9_higher_pressure_never_lowers_risk (patient_thresholds "normal") rates_zero
           (sample 100) 185 80); reflexivity.
Defined.


(** ** More on the rolling window *)

Lemma py_max_floor (x : float) : py_ge (py_max 1e-6 x) 1e-6 = true.
Proof.
  unfold py_ge, py_max, py_gt.
  destruct (PrimFloat.ltb 1e-6 x) eqn:Hx; [now apply ltb_leb | reflexivity].
Qed.

(** X10.  The divisor [max(1e-6, t_now - t_ref)] of a rate is at least
    [1e-6] whatever the timestamps (equal, out of order, NaN); so with two
    samples or more, the rate is the difference of two buffered samples
    divided by a number that is at least [1e-6], times 60. *)
Theorem X10_rate_divisor_at_least_epsilon
    (w : RollingWindow) (key : VitalKey) (seconds : float) :
  (forall x, py_ge (py_max 1e-6 x) 1e-6 = true) /\
  ((2 <= List.length (data w))%nat ->
   exists e_now e_ref dt,
     In e_now (data w) /\ In e_ref (data w) /\
     dt = py_max 1e-6 (fst e_now - fst e_ref) /\
     py_ge dt 1e-6 = true /\
     Engine._rate_per_min w key seconds
       = (vget (snd e_now) key - vget (snd e_ref) key) / dt * 60 /\
     Backend._rate w key seconds
       = (vget (snd e_now) key - vget (snd e_ref) key) / dt * 60).
Proof.
  split; [exact py_max_floor |]. intros Hlen.
  destruct (rate_body_described (data w) key seconds) as [_ H].
  destruct (H Hlen) as (t_now & v_now & t_ref & v_ref & Hnow & Href & Hrate).
  exists (t_now, v_now), (t_ref, v_ref), (py_max 1e-6 (t_now - t_ref)).
  split; [eapply nth_error_In; exact Hnow |].
  split.
  { destruct Href as [(i & Hi & _) | (_ & H0)]; eapply nth_error_In; eassumption. }
  split; [reflexivity |]. split; [apply py_max_floor |].
  split; exact Hrate.
Qed.

Lemma X10_witness :
  let w := mkWindow 120 [(60, sample 80); (60, sample 100)] in
  (2 <= List.length (data w))%nat /\
  exists e_now e_ref dt,
    In e_now (data w) /\ In e_ref (data w) /\
    dt = py_max 1e-6 (fst e_now - fst e_ref) /\
    py_ge dt 1e-6 = true /\
    Engine._rate_per_min w k_heart_rate 60
      = (vget (snd e_now) k_heart_rate - vget (snd e_ref) k_heart_rate) / dt * 60 /\
    Backend._rate w k_heart_rate 60
      = (vget (snd e_now) k_heart_rate - vget (snd e_ref) k_heart_rate) / dt * 60.
Proof.
  intros w.
  assert (Hlen : (2 <= List.length (data w))%nat) by (simpl; lia).
  split; [exact Hlen |].
  destruct (X10_rate_divisor_at_least_epsilon w k_heart_rate 60) as [_ H].
  exact (H Hlen).
Defined.

Lemma rates_short_engine (w : RollingWindow) :
  (List.length (data w) < 2)%nat -> Engine.rates_per_min w = no_rates.
Proof.
  intros H. apply Nat.ltb_lt in H.
  unfold Engine.rates_per_min, Engine._rate_per_min, rate_body. now rewrite H.
Qed.

Lemma rates_short_backend (w : RollingWindow) :
  (List.length (data w) < 2)%nat -> Backend.rates_per_min w = no_rates.
Proof.
  intros H. apply Nat.ltb_lt in H.
  unfold Backend.rates_per_min, Backend._rate, rate_body. now rewrite H.
Qed.

Lemma engine_pushes_retains (cap : nat) (calls : list EngineCall) :
  retains_last cap (map engine_entry calls)
    (data (engine_pushes (Engine.init cap) calls)).
Proof.
  destruct (engine_pushes_data calls (Engine.init cap)) as [_ ->].
  simpl. rewrite fold_deque_append_empty. apply skipn_retains_last.
Qed.

Lemma backend_pushes_retains (cap : nat) (calls : list Entry) :
  retains_last cap calls (data (backend_pushes (Backend.init cap) calls)).
Proof.
  destruct (backend_pushes_data calls (Backend.init cap)) as [_ ->].
  simpl. rewrite fold_deque_append_empty. apply skipn_retains_last.
Qed.

(** X11.  A window that has received at most one push, or whose capacity is
    at most 1, reports a zero rate for every vital: [rates_per_min] needs two
    buffered samples before it reports anything else. *)
Theorem X11_no_rate_before_two_samples
    (cap : nat) (calls : list EngineCall) (bcalls : list Entry) :
  ((cap <= 1)%nat \/ (List.length calls <= 1)%nat ->
   Engine.rates_per_min (engine_pushes (Engine.init cap) calls) = no_rates) /\
  ((cap <= 1)%nat \/ (List.length bcalls <= 1)%nat ->
   Backend.rates_per_min (backend_pushes (Backend.init cap) bcalls) = no_rates).
Proof.
  split; intros H.
  - apply rates_short_engine.
    destruct (engine_pushes_retains cap calls) as (Hlen & Hd & _).
    rewrite Hd in *. rewrite length_skipn, length_map in *. lia.
  - apply rates_short_backend.
    destruct (backend_pushes_retains cap bcalls) as (Hlen & Hd & _).
    rewrite Hd in *. rewrite length_skipn in *. lia.
Qed.

Lemma X11_witness :
  (1 <= 1)%nat /\
  Engine.rates_per_min (engine_pushes (Engine.init 1) (ticks 5 1)) = no_rates.
Proof.
  split; [lia |].
  destruct (X11_no_rate_before_two_samples 1 (ticks 5 1) []) as [H _].
  apply H. left. lia.
Defined.

Lemma deque_append_last {A : Type} (cap : nat) (d : list A) (x : A) :
  (1 <= cap)%nat -> exists older, deque_append cap d x = older ++ [x].
Proof.
  intros Hcap. unfold deque_append.
  destruct (cap <? List.length (d ++ [x]))%nat eqn:Hfull.
  - destruct d as [| y d'].
    + apply Nat.ltb_lt in Hfull. simpl in Hfull. lia.
    + exists d'. reflexivity.
  - exists d. reflexivity.
Qed.

(** X12.  With a capacity of at least 1, the entry just pushed is always
    the newest one of the buffer, in either file, whatever was evicted; with
    capacity 0 a fresh window stays empty whatever is pushed. *)
Theorem X12_push_keeps_the_newest
    (w : RollingWindow) (vitals : Vitals) (t_epoch : option float) (clock t : float)
    (calls : list EngineCall) :
  ((1 <= maxlen w)%nat ->
   (exists older,
      data (Engine.push w vitals t_epoch clock)
      = older ++ [(Engine.stamp t_epoch clock, vitals)]) /\
   (exists older, data (Backend.push w t vitals) = older ++ [(t, vitals)])) /\
  data (engine_pushes (Engine.init 0) calls) = [].
Proof.
  split.
  - intros Hcap. split; apply deque_append_last; exact Hcap.
  - destruct (engine_pushes_retains 0 calls) as (Hlen & _).
    destruct (data (engine_pushes (Engine.init 0) calls)); [reflexivity |].
    simpl in Hlen. lia.
Qed.

Lemma X12_witness :
  (1 <= maxlen Engine.init_default)%nat /\
  exists older,
    data (Engine.push Engine.init_default v_scenario None 5)
    = older ++ [(5, v_scenario)].
Proof.
  split; [vm_compute; lia |].
  destruct (X12_push_keeps_the_newest Engine.init_default v_scenario None 5 0 [])
    as [H _].
  apply H. vm_compute. lia.
Defined.

Lemma stamp_explicit (t clock : float) :
  nonzero t -> Engine.stamp (Some t) clock = t.
Proof. unfold nonzero, Engine.stamp, truthy. intros ->. reflexivity. Qed.

(** X13.  Fed the same samples with explicit timestamps other than zero,
    the window of [src/risk_engine.py] and the window of the backend hold
    the same buffer and report the same rates. *)
Theorem X13_windows_agree_on_explicit_timestamps
    (w : RollingWindow) (ps : list (Entry * float)) :
  Forall (fun p => nonzero (fst (fst p))) ps ->
  engine_pushes w (map explicit_call ps) = backend_pushes w (map fst ps) /\
  Engine.rates_per_min (engine_pushes w (map explicit_call ps))
  = Backend.rates_per_min (backend_pushes w (map fst ps)).
Proof.
  intros Hnz.
  assert (H : engine_pushes w (map explicit_call ps) = backend_pushes w (map fst ps)).
  { revert w. induction Hnz as [| [[t v] clock] ps Ht _ IH]; intros w; [reflexivity |].
    unfold engine_pushes, backend_pushes in *.
    cbn [map fold_left explicit_call fst snd call_vitals call_t_epoch call_clock].
    replace (Engine.push w v (Some t) clock) with (Backend.push w t v); [apply IH |].
    unfold Engine.push, Backend.push. simpl in Ht.
    now rewrite (stamp_explicit t clock Ht). }
  split; [exact H |]. rewrite H. reflexivity.
Qed.

Lemma X13_witness :
  Forall (fun p : Entry * float => nonzero (fst (fst p)))
         [((10, sample 80), 99); ((40, sample 90), 99)] /\
  engine_pushes Engine.init_default
    (map explicit_call [((10, sample 80), 99); ((40, sample 90), 99)])
  = backend_pushes Engine.init_default [(10, sample 80); (40, sample 90)].
Proof.
  assert (Hnz : Forall (fun p : Entry * float => nonzero (fst (fst p)))
                  [((10, sample 80), 99); ((40, sample 90), 99)])
    by (repeat constructor).
  split; [exact Hnz |].
  apply (X13_windows_agree_on_explicit_timestamps Engine.init_default _ Hnz).
Defined.


(** ** More on outcome inference *)

Lemma engine_infer_rule_by_rule (v : Vitals) (level : string) (reasons : list string) :
  Engine.infer_outcomes v level reasons = engine_rule_by_rule v level reasons.
Proof.
  unfold Engine.infer_outcomes, engine_rule_by_rule, some_rule.
  destruct (rule_cardiac v), (rule_stroke v), (rule_respiratory v), (rule_sepsis v),
    (is_orange_or_red level); reflexivity.
Qed.

Lemma backend_infer_rule_by_rule (v : Vitals) (level : string) (reasons : list string) :
  Backend.infer_outcomes v level reasons = backend_rule_by_rule v level reasons.
Proof.
  unfold Backend.infer_outcomes, backend_rule_by_rule, some_rule.
  destruct (rule_cardiac v), (rule_stroke v), (rule_respiratory v), (rule_sepsis v),
    (is_orange_or_red level); reflexivity.
Qed.

Ltac split_rules v level :=
  unfold engine_rule_by_rule, backend_rule_by_rule, some_rule;
  destruct (rule_cardiac v), (rule_stroke v), (rule_respiratory v), (rule_sepsis v),
    (is_orange_or_red level); cbn [emitted app andb orb negb map List.length].

(** X14.  [infer_outcomes] returns at most four outcomes, their names are
    pairwise distinct, and the fallback outcome, when present, is the only
    one. *)
Theorem X14_outcomes_few_and_distinct
    (v : Vitals) (level : string) (reasons : list string) :
  let e := Engine.infer_outcomes v level reasons in
  let b := Backend.infer_outcomes v level reasons in
  ((List.length e <= 4)%nat /\ NoDup (map Engine.name e) /\
   (In (Engine.fallback reasons) e -> e = [Engine.fallback reasons])) /\
  ((List.length b <= 4)%nat /\ NoDup (map Backend.name b) /\
   (In (Backend.fallback reasons) b -> b = [Backend.fallback reasons])).
Proof.
  cbv zeta. rewrite engine_infer_rule_by_rule, backend_infer_rule_by_rule.
  split; split_rules v level;
    (split; [lia |]);
    (split; [repeat constructor; simpl; intuition discriminate |]);
    simpl; intuition (try discriminate; auto).
Qed.

(** X15.  [infer_outcomes] returns the empty list exactly when no pattern
    rule fires and the level is neither "orange" nor "red"; an orange or red
    level always comes with at least one outcome. *)
Theorem X15_outcomes_empty_iff
    (v : Vitals) (level : string) (reasons : list string) :
  (Engine.infer_outcomes v level reasons = [] <->
   some_rule v = false /\ is_orange_or_red level = false) /\
  (Backend.infer_outcomes v level reasons = [] <->
   some_rule v = false /\ is_orange_or_red level = false).
Proof.
  rewrite engine_infer_rule_by_rule, backend_infer_rule_by_rule.
  split; split_rules v level;
    split; intros H; try discriminate H; try (destruct H; discriminate); auto.
Qed.

(** X16.  Every outcome carries a probability between 0.40 and 0.85. *)
Theorem X16_probabilities_bounded
    (v : Vitals) (level : string) (reasons : list string) :
  Forall (fun o => py_le 0.40 (Engine.probability o) = true /\
                   py_le (Engine.probability o) 0.85 = true)
         (Engine.infer_outcomes v level reasons) /\
  Forall (fun o => py_le 0.40 (Backend.probability o) = true /\
                   py_le (Backend.probability o) 0.85 = true)
         (Backend.infer_outcomes v level reasons).
Proof.
  rewrite engine_infer_rule_by_rule, backend_infer_rule_by_rule.
  unfold engine_rule_by_rule, backend_rule_by_rule.
  rewrite !Forall_app.
  repeat split; apply Forall_emitted; simpl;
    destruct (is_red level), (is_orange_or_red level); split; reflexivity.
Qed.

(** ** Classification followed by outcome inference *)

Lemma tables_cover_rules (profile : string) : covers_rules (patient_thresholds profile).
Proof.
  unfold patient_thresholds.
  destruct (String.eqb profile "athlete");
    [| destruct (String.eqb profile "hypertensive");
       [| destruct (String.eqb profile "critical")]];
    repeat split; reflexivity.
Qed.

Lemma count4_two (a b c d : bool) :
  (a && (b || c) = true) \/ (d && a = true) -> (2 <= count4 a b c d)%nat.
Proof.
  destruct a, b, c, d; simpl; intros [H | H]; try discriminate H; lia.
Qed.

Lemma rule_needs_red_or_two_warnings (v : Vitals) (th : Thresholds) :
  covers_rules th -> some_rule v = true ->
  some_red v th = true \/
  (2 <= count4 (c_hr_yellow v th) (c_spo2_yellow v th) (c_bp_yellow v th)
               (c_temp_yellow v th))%nat.
Proof.
  unfold covers_rules, py_le.
  intros (Hsys & Hdia & Hspo & Hhr & Hsy & Hsp & Htemp) Hrule.
  unfold some_rule in Hrule. rewrite !orb_true_iff in Hrule.
  destruct Hrule as [[[Hc | Hs] | Hr] | Hp].
  - (* cardiac *)
    right. apply count4_two. left.
    unfold rule_cardiac in Hc. apply andb_true_iff in Hc. destruct Hc as [Hh Hc].
    apply andb_true_iff. split.
    + unfold c_hr_yellow, py_ge in *.
      apply leb_trans with (b := 120); [exact Hhr |].
      apply leb_trans with (b := 130); [reflexivity | exact Hh].
    + apply orb_true_iff in Hc. apply orb_true_iff. destruct Hc as [Hc | Hc].
      * right. unfold c_bp_yellow. apply orb_true_iff. left.
        unfold py_ge in *. now apply leb_trans with (b := 170).
      * left. unfold c_spo2_yellow, py_le in *. now apply leb_trans with (b := 92).
  - (* stroke *)
    left. unfold some_red, c_bp_red, rule_stroke, py_ge in *.
    apply orb_true_iff in Hs.
    assert (H : PrimFloat.leb (sys_red th) (bp_systolic v)
                || PrimFloat.leb (dia_red th) (bp_diastolic v) = true).
    { apply orb_true_iff. destruct Hs as [Hs | Hs]; [left | right].
      - now apply leb_trans with (b := 180).
      - now apply leb_trans with (b := 120). }
    rewrite H. now rewrite !orb_true_r.
  - (* respiratory *)
    left. unfold some_red, c_spo2_red, rule_respiratory, py_le in *.
    assert (H : PrimFloat.leb (oxygen_saturation v) (spo2_red th) = true)
      by now apply leb_trans with (b := 90).
    rewrite H. now rewrite !orb_true_r.
  - (* sepsis *)
    right. apply count4_two. right.
    unfold rule_sepsis in Hp. apply andb_true_iff in Hp. destruct Hp as [Ht Hh].
    apply andb_true_iff. split.
    + unfold c_temp_yellow. apply orb_true_iff. left.
      unfold py_ge in *. now apply leb_trans with (b := 38.5).
    + unfold c_hr_yellow, py_ge in *. now apply leb_trans with (b := 120).
Qed.

Lemma rule_gives_orange_or_red (v : Vitals) (th : Thresholds) (rates : Rates)
    (s : Tally) :
  covers_rules th -> tallied v th rates s -> some_rule v = true ->
  is_orange_or_red (level_of (decide_level s)) = true.
Proof.
  intros Hth (Hr & Hw & _) Hrule.
  destruct (rule_needs_red_or_two_warnings v th Hth Hrule) as [H | H].
  - apply decide_level_red_hit. rewrite Hr. now apply count4_pos.
  - apply decide_level_two_warnings. now rewrite Hw.
Qed.

(** X17.  With the thresholds of any profile, a pattern rule of
    [infer_outcomes] can only fire on vitals that [classify_level] rates
    "orange" or "red".  Hence, for the outcomes inferred from a
    classification, the list is non-empty exactly when the level is
    "orange" or "red". *)
Theorem X17_outcomes_iff_orange_or_red
    (profile : string) (v : Vitals) (rates : Rates) :
  let th := patient_thresholds profile in
  let e := Engine.classify_level v th rates in
  let b := Backend.classify_level v th rates in
  (some_rule v = true ->
   is_orange_or_red (level_of e) = true /\ is_orange_or_red (level_of b) = true) /\
  (Engine.infer_outcomes v (level_of e) (reasons_of e) <> [] <->
   is_orange_or_red (level_of e) = true) /\
  (Backend.infer_outcomes v (level_of b) (reasons_of b) <> [] <->
   is_orange_or_red (level_of b) = true).
Proof.
  intros th e b.
  assert (He : some_rule v = true -> is_orange_or_red (level_of e) = true).
  { apply (rule_gives_orange_or_red v th rates);
      [apply tables_cover_rules | apply engine_tallied]. }
  assert (Hb : some_rule v = true -> is_orange_or_red (level_of b) = true).
  { apply (rule_gives_orange_or_red v th rates);
      [apply tables_cover_rules | apply backend_tallied]. }
  split; [auto |].
  rewrite engine_infer_rule_by_rule, backend_infer_rule_by_rule.
  unfold engine_rule_by_rule, backend_rule_by_rule.
  split.
  - destruct (some_rule v) eqn:Hs.
    + rewrite (He eq_refl). unfold some_rule in Hs.
      destruct (rule_cardiac v), (rule_stroke v), (rule_respiratory v),
        (rule_sepsis v); try discriminate Hs; simpl; split; auto; discriminate.
    + unfold some_rule in Hs. rewrite !orb_false_iff in Hs.
      destruct Hs as (((-> & ->) & ->) & ->).
      destruct (is_orange_or_red (level_of e)); simpl;
        split; intros H; try discriminate; auto; now contradiction H.
  - destruct (some_rule v) eqn:Hs.
    + rewrite (Hb eq_refl). unfold some_rule in Hs.
      destruct (rule_cardiac v), (rule_stroke v), (rule_respiratory v),
        (rule_sepsis v); try discriminate Hs; simpl; split; auto; discriminate.
    + unfold some_rule in Hs. rewrite !orb_false_iff in Hs.
      destruct Hs as (((-> & ->) & ->) & ->).
      destruct (is_orange_or_red (level_of b)); simpl;
        split; intros H; try discriminate; auto; now contradiction H.
Qed.

(** X18.  With the thresholds of any profile, the outcomes inferred from a
    classification never carry the lower probability of the stroke rule
    (0.60) nor of the sepsis rule (0.40): the stroke outcome always has
    probability 0.80 and the sepsis outcome 0.60. *)
Theorem X18_stroke_and_sepsis_probabilities
    (profile : string) (v : Vitals) (rates : Rates) :
  let th := patient_thresholds profile in
  let e := Engine.classify_level v th rates in
  let b := Backend.classify_level v th rates in
  Forall (fun o =>
            (Engine.name o = "Stroke / hypertensive crisis risk"%string ->
             Engine.probability o = 0.80) /\
            (Engine.name o = "Systemic infection / sepsis risk (screen)"%string ->
             Engine.probability o = 0.60))
         (Engine.infer_outcomes v (level_of e) (reasons_of e)) /\
  Forall (fun o =>
            (Backend.name o = "Stroke / hypertensive crisis risk"%string ->
             Backend.probability o = 0.80) /\
            (Backend.name o = "Systemic infection / sepsis risk (screen)"%string ->
             Backend.probability o = 0.60))
         (Backend.infer_outcomes v (level_of b) (reasons_of b)).
Proof.
  intros th e b.
  assert (He : some_rule v = true -> is_orange_or_red (level_of e) = true).
  { apply (rule_gives_orange_or_red v th rates);
      [apply tables_cover_rules | apply engine_tallied]. }
  assert (Hb : some_rule v = true -> is_orange_or_red (level_of b) = true).
  { apply (rule_gives_orange_or_red v th rates);
      [apply tables_cover_rules | apply backend_tallied]. }
  rewrite engine_infer_rule_by_rule, backend_infer_rule_by_rule.
  unfold engine_rule_by_rule, backend_rule_by_rule.
  split.
  - destruct (some_rule v) eqn:Hs.
    + rewrite !Forall_app.
      repeat split; apply Forall_emitted; simpl; rewrite ?(He eq_refl);
        split; intros H; (discriminate H || reflexivity).
    + unfold some_rule in Hs. rewrite !orb_false_iff in Hs.
      destruct Hs as (((-> & ->) & ->) & ->). simpl.
      apply Forall_emitted. simpl. split; intros H; discriminate H.
  - destruct (some_rule v) eqn:Hs.
    + rewrite !Forall_app.
      repeat split; apply Forall_emitted; simpl; rewrite ?(Hb eq_refl);
        split; intros H; (discriminate H || reflexivity).
    + unfold some_rule in Hs. rewrite !orb_false_iff in Hs.
      destruct Hs as (((-> & ->) & ->) & ->). simpl.
      apply Forall_emitted. simpl. split; intros H; discriminate H.
Qed.

(** ** The callers *)

Lemma decide_level_cases (s : Tally) :
  exists level reasons score title,
    decide_level s = (level, reasons, score) /\
    title_map level = Some title /\
    In level ["green"; "yellow"; "orange"; "red"]%string.
Proof.
  unfold decide_level.
  destruct ((1 <=? red_hits s)%nat && py_ge (clamp (score s)) 55);
    [| destruct ((1 <=? red_hits s)%nat || py_ge (clamp (score s)) 45
                 || (2 <=? warn_hits s)%nat);
       [| destruct ((1 <=? warn_hits s)%nat || py_ge (clamp (score s)) 20)]];
    do 4 eexists; (split; [reflexivity |]); (split; [reflexivity |]); simpl; auto.
Qed.

(** X19.  The title lookup of the two callers never fails: whatever the
    window, profile, vitals and time, a rerun of [app.py] and a turn of the
    loop of [main.py] complete, the level they carry is one of "green",
    "yellow", "orange", "red", it is the level [classify_level] gives for
    the rates of the window after the push, and the title is the entry of
    that level. *)
Theorem X19_title_lookup_never_fails
    (persist_db : bool) (w : RollingWindow) (profile : string) (vitals : Vitals)
    (clock t : float) :
  (exists tk,
      app_tick persist_db w profile vitals clock = Some tk /\
      app_window tk = Engine.push w vitals None clock /\
      app_rates tk = Engine.rates_per_min (app_window tk) /\
      (app_level tk, app_reasons tk, app_score tk)
        = Engine.classify_level vitals (patient_thresholds profile) (app_rates tk) /\
      title_map (app_level tk) = Some (app_title tk) /\
      In (app_level tk) ["green"; "yellow"; "orange"; "red"]%string) /\
  (exists tk,
      ws_tick w profile vitals t = Some tk /\
      ws_window tk = Backend.push w t vitals /\
      ws_rates tk = Backend.rates_per_min (ws_window tk) /\
      (ws_level tk, ws_reasons tk, ws_score tk)
        = Backend.classify_level vitals (patient_thresholds profile) (ws_rates tk) /\
      title_map (ws_level tk) = Some (ws_title tk) /\
      In (ws_level tk) ["green"; "yellow"; "orange"; "red"]%string).
Proof.
  split.
  - unfold app_tick, Engine.classify_level.
    destruct (decide_level_cases
                (Engine.checks vitals (patient_thresholds profile)
                   (Engine.rates_per_min (Engine.push w vitals None clock))))
      as (level & reasons & score & title & Hd & Ht & Hin).
    rewrite Hd, Ht. eexists. split; [reflexivity |].
    cbn [app_window app_rates app_level app_reasons app_score app_title
         ws_window ws_rates ws_level ws_reasons ws_score ws_title].
    repeat split; (assumption || (symmetry; exact Hd)).
  - unfold ws_tick, Backend.classify_level.
    destruct (decide_level_cases
                (Backend.checks vitals (patient_thresholds profile)
                   (Backend.rates_per_min (Backend.push w t vitals))))
      as (level & reasons & score & title & Hd & Ht & Hin).
    rewrite Hd, Ht. eexists. split; [reflexivity |].
    cbn [app_window app_rates app_level app_reasons app_score app_title
         ws_window ws_rates ws_level ws_reasons ws_score ws_title].
    repeat split; (assumption || (symmetry; exact Hd)).
Qed.


Lemma outcomes_nonempty_engine (v : Vitals) (level : string) (reasons : list string) :
  (some_rule v = true -> is_orange_or_red level = true) ->
  (Engine.infer_outcomes v level reasons <> [] <-> is_orange_or_red level = true).
Proof.
  intros Hrule. rewrite engine_infer_rule_by_rule. unfold engine_rule_by_rule.
  destruct (some_rule v) eqn:Hs.
  - rewrite (Hrule eq_refl). unfold some_rule in Hs.
    destruct (rule_cardiac v), (rule_stroke v), (rule_respiratory v),
      (rule_sepsis v); try discriminate Hs; simpl; split; auto; discriminate.
  - unfold some_rule in Hs. rewrite !orb_false_iff in Hs.
    destruct Hs as (((-> & ->) & ->) & ->).
    destruct (is_orange_or_red level); simpl;
      split; intros H; try discriminate; auto; now contradiction H.
Qed.

Lemma outcomes_nonempty_backend (v : Vitals) (level : string) (reasons : list string) :
  (some_rule v = true -> is_orange_or_red level = true) ->
  (Backend.infer_outcomes v level reasons <> [] <-> is_orange_or_red level = true).
Proof.
  intros Hrule. rewrite backend_infer_rule_by_rule. unfold backend_rule_by_rule.
  destruct (some_rule v) eqn:Hs.
  - rewrite (Hrule eq_refl). unfold some_rule in Hs.
    destruct (rule_cardiac v), (rule_stroke v), (rule_respiratory v),
      (rule_sepsis v); try discriminate Hs; simpl; split; auto; discriminate.
  - unfold some_rule in Hs. rewrite !orb_false_iff in Hs.
    destruct Hs as (((-> & ->) & ->) & ->).
    destruct (is_orange_or_red level); simpl;
      split; intros H; try discriminate; auto; now contradiction H.
Qed.

Lemma level_policy (level : string) :
  In level ["green"; "yellow"; "orange"; "red"]%string ->
  (is_event_level level = true <-> level <> "green"%string) /\
  (is_event_level level && maybe_notify level = is_orange_or_red level) /\
  (is_orange_or_red level = true -> is_event_level level = true).
Proof.
  simpl. intros [<- | [<- | [<- | [<- | []]]]]; vm_compute;
    repeat split; intros; try discriminate; try reflexivity; congruence.
Qed.

(** X20.  In a turn of the loop of [main.py], an event is logged exactly
    when the level is not "green", and a notification is posted exactly when
    the level is "orange" or "red", which is exactly when the list of
    outcomes is not empty; a notification never goes without a logged
    event.  A rerun of [app.py] saves an event exactly when persistence is
    on and the level is not "green". *)
Theorem X20_events_and_notifications
    (persist_db : bool) (w : RollingWindow) (profile : string) (vitals : Vitals)
    (clock t : float) (atk : AppTick) (wtk : WsTick) :
  app_tick persist_db w profile vitals clock = Some atk ->
  ws_tick w profile vitals t = Some wtk ->
  (app_saves_event atk = true <->
   persist_db = true /\ app_level atk <> "green"%string) /\
  (ws_logs_event wtk = true <-> ws_level wtk <> "green"%string) /\
  (ws_notifies wtk = true <-> is_orange_or_red (ws_level wtk) = true) /\
  (ws_notifies wtk = true <-> ws_outcomes wtk <> []) /\
  (ws_notifies wtk = true -> ws_logs_event wtk = true).
Proof.
  unfold app_tick, ws_tick, Engine.classify_level, Backend.classify_level.
  set (se := Engine.checks vitals (patient_thresholds profile)
               (Engine.rates_per_min (Engine.push w vitals None clock))).
  set (sb := Backend.checks vitals (patient_thresholds profile)
               (Backend.rates_per_min (Backend.push w t vitals))).
  assert (Hrule : some_rule vitals = true ->
                  is_orange_or_red (level_of (decide_level sb)) = true).
  { apply (rule_gives_orange_or_red vitals (patient_thresholds profile)
             (Backend.rates_per_min (Backend.push w t vitals)));
      [apply tables_cover_rules | apply backend_tallied]. }
  destruct (decide_level_cases se) as (le & re & sce & te & Hde & Hte & Hine).
  destruct (decide_level_cases sb) as (lb & rb & scb & tb & Hdb & Htb & Hinb).
  rewrite Hdb in Hrule. unfold level_of in Hrule. simpl in Hrule.
  rewrite Hde, Hte, Hdb, Htb.
  intros Ha Hw. injection Ha as <-. injection Hw as <-.
  cbn [app_saves_event app_level ws_logs_event ws_level ws_notifies ws_outcomes].
  destruct (level_policy le Hine) as (Hev & _ & _).
  destruct (level_policy lb Hinb) as (Hevb & Hnb & Himp).
  rewrite Hnb.
  split; [rewrite andb_true_iff, Hev; tauto |].
  split; [exact Hevb |].
  split; [tauto |].
  split; [| exact Himp].
  symmetry. apply outcomes_nonempty_backend. exact Hrule.
Qed.

Lemma X20_witness :
  exists atk wtk,
    app_tick true (Engine.init 120) "normal" v_scenario 5 = Some atk /\
    ws_tick (Backend.init 120) "normal" v_scenario 5 = Some wtk /\
    (ws_notifies wtk = true <-> ws_outcomes wtk <> []).
Proof.
  eexists. eexists.
  split; [reflexivity |]. split; [reflexivity |].
  eapply (X20_events_and_notifications true (Engine.init 120) "normal" v_scenario 5 5);
    reflexivity.
Defined.

Lemma deque_append_fresh {A : Type} (cap : nat) (x : A) :
  (List.length (deque_append cap [] x) < 2)%nat.
Proof.
  unfold deque_append. simpl. destruct (cap <? 1)%nat; simpl; lia.
Qed.

(** X21.  The first rerun or loop turn for a patient, on a fresh window of
    any capacity, sees every rate at zero: no trend boost can fire, and the
    result is the classification of the vitals against the thresholds
    alone. *)
Theorem X21_first_tick_has_no_trend
    (persist_db : bool) (cap : nat) (profile : string) (vitals : Vitals)
    (clock t : float) :
  (c_hr_rising no_rates = false /\ c_spo2_dropping no_rates = false /\
   c_sys_rising no_rates = false) /\
  (exists tk,
      app_tick persist_db (Engine.init cap) profile vitals clock = Some tk /\
      app_rates tk = no_rates /\
      (app_level tk, app_reasons tk, app_score tk)
        = Engine.classify_level vitals (patient_thresholds profile) no_rates) /\
  (exists tk,
      ws_tick (Backend.init cap) profile vitals t = Some tk /\
      ws_rates tk = no_rates /\
      (ws_level tk, ws_reasons tk, ws_score tk)
        = Backend.classify_level vitals (patient_thresholds profile) no_rates).
Proof.
  split; [repeat split; reflexivity |]. split.
  - unfold app_tick.
    rewrite (rates_short_engine (Engine.push (Engine.init cap) vitals None clock))
      by apply deque_append_fresh.
    unfold Engine.classify_level.
    destruct (decide_level_cases
                (Engine.checks vitals (patient_thresholds profile) no_rates))
      as (level & reasons & score & title & Hd & Ht & _).
    rewrite Hd, Ht. eexists. split; [reflexivity |]. split; reflexivity.
  - unfold ws_tick.
    rewrite (rates_short_backend (Backend.push (Backend.init cap) t vitals))
      by apply deque_append_fresh.
    unfold Backend.classify_level.
    destruct (decide_level_cases
                (Backend.checks vitals (patient_thresholds profile) no_rates))
      as (level & reasons & score & title & Hd & Ht & _).
    rewrite Hd, Ht. eexists. split; [reflexivity |]. split; reflexivity.
Qed.

Lemma concat_head (sep : string) (c : ascii) (s : string) (l : list string) :
  exists s', String.concat sep (String c s :: l) = String c s'.
Proof.
  destruct l as [| y l]; simpl; eexists; reflexivity.
Qed.

Lemma explain_of_nonempty (l : list string) :
  Forall starts_not_N l -> l <> [] ->
  explain_of l <> "No abnormalities detected."%string.
Proof.
  intros Hall Hne. destruct l as [| m l]; [contradiction |].
  inversion Hall as [| m' l' Hm _]; subst.
  unfold explain_of. cbn [is_empty].
  change (firstn 4 (m :: l)) with (m :: firstn 3 l).
  destruct m as [| c s]; [contradiction |].
  destruct (concat_head " | " c s (firstn 3 l)) as [s' ->].
  intros H. injection H as Hc _. now apply Hm.
Qed.

Lemma Forall_said (P : string -> Prop) (c : bool) (m : string) :
  P m -> Forall P (said c m).
Proof. intros H. destruct c; simpl; auto. Qed.

Lemma reasons_start_not_N (v : Vitals) (th : Thresholds) (rates : Rates) :
  Forall starts_not_N (reasons_all_checks v th rates) /\
  Forall starts_not_N (reasons_hr_deduplicated v th rates).
Proof.
  unfold reasons_all_checks, reasons_hr_deduplicated, red_and_trend_reasons,
    later_yellow_reasons.
  rewrite !Forall_app.
  repeat split; apply Forall_said;
    unfold msg_hr_red, msg_spo2_red, msg_bp_red, msg_temp_red, msg_hr_rising,
      msg_spo2_dropping, msg_sys_rising, msg_hr_yellow, msg_spo2_yellow,
      msg_bp_yellow, msg_temp_yellow;
    cbn [String.append starts_not_N]; discriminate.
Qed.

(** X22.  The explanation the callers build from a classification is the
    text "No abnormalities detected." exactly when none of the eleven checks
    fired. *)
Theorem X22_default_explanation_iff_no_check
    (v : Vitals) (th : Thresholds) (rates : Rates) :
  (explain_of (reasons_of (Engine.classify_level v th rates))
     = "No abnormalities detected."%string <-> some_check v th rates = false) /\
  (explain_of (reasons_of (Backend.classify_level v th rates))
     = "No abnormalities detected."%string <-> some_check v th rates = false).
Proof.
  unfold Engine.classify_level, Backend.classify_level.
  rewrite !decide_level_reasons, engine_reasons, backend_reasons.
  destruct (reasons_start_not_N v th rates) as [He Hb].
  assert (Hen : reasons_all_checks v th rates = [] <-> some_check v th rates = false).
  { rewrite some_check_false.
    unfold reasons_all_checks, red_and_trend_reasons, later_yellow_reasons.
    rewrite !app_nil_iff, !said_nil. tauto. }
  assert (Hbn : reasons_hr_deduplicated v th rates = [] <-> some_check v th rates = false).
  { rewrite some_check_false.
    unfold reasons_hr_deduplicated, red_and_trend_reasons, later_yellow_reasons.
    rewrite !app_nil_iff, !said_nil.
    destruct (c_hr_red v th), (c_hr_yellow v th); simpl; tauto. }
  split.
  - rewrite <- Hen. split.
    + intros H. destruct (reasons_all_checks v th rates) eqn:E; [reflexivity |].
      exfalso. revert H. apply explain_of_nonempty; [exact He | discriminate].
    + intros ->. reflexivity.
  - rewrite <- Hbn. split.
    + intros H. destruct (reasons_hr_deduplicated v th rates) eqn:E; [reflexivity |].
      exfalso. revert H. apply explain_of_nonempty; [exact Hb | discriminate].
    + intros ->. reflexivity.
Qed.

(** X23.  The history of [app.py] never holds more than 300 rows after a
    rerun, the row just appended is always its last one, and the rows kept
    are the most recent ones in their order. *)
Theorem X23_history_capped_at_300 {A : Type} (history : list A) (row : A) :
  (List.length (history_step history row) <= 300)%nat /\
  (exists older, history_step history row = older ++ [row]) /\
  (exists dropped, history ++ [row] = dropped ++ history_step history row) /\
  ((List.length history < 300)%nat -> history_step history row = history ++ [row]).
Proof.
  unfold history_step, append.
  split; [rewrite length_skipn, length_app; simpl; lia |].
  split.
  - exists (skipn (List.length (history ++ [row]) - 300) history).
    rewrite skipn_app_within; [reflexivity | rewrite length_app; simpl; lia].
  - split.
    + exists (firstn (List.length (history ++ [row]) - 300) (history ++ [row])).
      now rewrite firstn_skipn.
    + intros H. rewrite length_app. simpl.
      replace (List.length history + 1 - 300)%nat with 0%nat by lia. reflexivity.
Qed.

Lemma round_of_tally (r1 r2 r3 r4 t1 t2 t3 y1 y2 y3 y4 : bool) :
  py_round (clamp (total r1 r2 r3 r4 t1 t2 t3 y1 y2 y3 y4)) 1
  = clamp (total r1 r2 r3 r4 t1 t2 t3 y1 y2 y3 y4).
Proof.
  destruct r1, r2, r3, r4, t1, t2, t3, y1, y2, y3, y4; vm_compute; reflexivity.
Qed.

(** X24.  Rounding the score to one decimal, as both callers do for the
    "risk_score" they record, never changes it: the scores [classify_level]
    returns are whole numbers. *)
Theorem X24_risk_score_is_the_score (v : Vitals) (th : Thresholds) (rates : Rates) :
  py_round (score_of (Engine.classify_level v th rates)) 1
    = score_of (Engine.classify_level v th rates) /\
  py_round (score_of (Backend.classify_level v th rates)) 1
    = score_of (Backend.classify_level v th rates).
Proof.
  unfold Engine.classify_level, Backend.classify_level.
  rewrite !decide_level_score, engine_score, backend_score.
  split; apply round_of_tally.
Qed.


(** ** The simulator *)

Lemma _clamp_range (x lo hi : float) :
  py_le lo hi = true ->
  py_le lo (_clamp x lo hi) = true /\ py_le (_clamp x lo hi) hi = true.
Proof.
  unfold _clamp, py_max, py_min, py_gt, py_lt, py_le. intros Hb.
  pose proof (leb_refl_l _ _ Hb) as Hlo. pose proof (leb_refl_r _ _ Hb) as Hhi.
  destruct (PrimFloat.ltb x hi) eqn:Hx.
  - destruct (PrimFloat.ltb lo x) eqn:Hl; split; auto using ltb_leb.
  - destruct (PrimFloat.ltb lo hi) eqn:Hl; split; auto.
Qed.

Lemma generate_vitals_shape (profile : string) (state : option SimState)
    (src : nat -> float) (n : nat) :
  exists hr sys dia spo2 temp n',
    let st' := mkSim (_clamp hr 40 190) (_clamp sys 90 220) (_clamp dia 50 140)
                     (_clamp spo2 75 100) (_clamp temp 34.0 41.0) in
    generate_vitals profile state src n = (rounded_state st', st', n') /\
    (n + 8 <= n' <= n + 13)%nat.
Proof.
  cbv beta iota zeta delta [generate_vitals bind uniform random ret rounded_state].
  repeat (match goal with
          | |- context [if py_lt ?a ?b then _ else _] => destruct (py_lt a b)
          end; cbv beta iota zeta);
    do 6 eexists; (split; [reflexivity | lia]).
Qed.

(** X25.  Whatever the profile, the state passed in (empty, or holding any
    floats, NaN included) and the random draws, [generate_vitals] leaves
    every field of the state within its clamp range: heart rate in
    [40, 190], systolic in [90, 220], diastolic in [50, 140], saturation in
    [75, 100] and temperature in [34, 41]; it reads between 8 and 13 random
    draws, and the vitals it returns are that state rounded. *)
Theorem X25_simulated_state_in_range (profile : string) (state : option SimState)
    (src : nat -> float) (n : nat) :
  let '(vitals, st', n') := generate_vitals profile state src n in
  state_in_range st' /\ vitals = rounded_state st' /\ (n + 8 <= n' <= n + 13)%nat.
Proof.
  destruct (generate_vitals_shape profile state src n)
    as (hr & sys & dia & spo2 & temp & n' & Hg & Hn).
  cbv zeta in Hg. rewrite Hg.
  split; [| split; [reflexivity | exact Hn]].
  unfold state_in_range. cbn [sim_hr sim_sys sim_dia sim_spo2 sim_temp].
  repeat split; apply _clamp_range; reflexivity.
Qed.


(** ** Rounding within a range *)

Lemma round_half_even_between (n d a b : Z) :
  (0 < d)%Z -> (a * d <= n)%Z -> (n <= b * d)%Z ->
  (a <= round_half_even n d <= b)%Z.
Proof.
  intros Hd Ha Hb. unfold round_half_even.
  pose proof (Z.div_mod n d ltac:(lia)) as Hdm.
  pose proof (Z.mod_pos_bound n d Hd) as Hr.
  assert (Hq : (a <= n / d)%Z) by (apply Z.div_le_lower_bound; lia).
  assert (Hq' : (n / d <= b)%Z) by (apply Z.div_le_upper_bound; lia).
  assert (Hstep : (0 < n mod d -> n / d + 1 <= b)%Z).
  { intros Hpos. assert ((n / d) * d < b * d)%Z by nia. nia. }
  destruct (Z.compare_spec (2 * (n mod d)) d) as [He | Hl | Hg].
  - destruct (Z.even (n / d)); lia.
  - lia.
  - lia.
Qed.

Lemma digits2_pos_bounds (m : positive) :
  (2 ^ (Zpos (digits2_pos m) - 1) <= Zpos m < 2 ^ Zpos (digits2_pos m))%Z.
Proof.
  induction m as [p IH | p IH |]; cbn [digits2_pos].
  - rewrite Pos2Z.inj_succ.
    replace (Z.succ (Zpos (digits2_pos p)) - 1)%Z with (Z.succ (Zpos (digits2_pos p) - 1)) by lia.
    rewrite !Z.pow_succ_r by lia. lia.
  - rewrite Pos2Z.inj_succ.
    replace (Z.succ (Zpos (digits2_pos p)) - 1)%Z with (Z.succ (Zpos (digits2_pos p) - 1)) by lia.
    rewrite !Z.pow_succ_r by lia. lia.
  - simpl. lia.
Qed.

Lemma normal_mantissa (s : bool) (m : positive) (e : Z) :
  valid_binary (S754_finite s m e) = true -> (-1074 < e)%Z ->
  (2 ^ 52 <= Zpos m < 2 ^ 53)%Z.
Proof.
  unfold valid_binary, SpecFloat.valid_binary, bounded, canonical_mantissa, fexp.
  intros H He. apply andb_true_iff in H. destruct H as [H _].
  apply Z.eqb_eq in H.
  assert (Hd : Zpos (digits2_pos m) = 53%Z).
  { unfold SpecFloat.emin, prec, emax in H. lia. }
  pose proof (digits2_pos_bounds m) as Hb. rewrite Hd in Hb. exact Hb.
Qed.

Lemma pow2_split (a b : Z) :
  (0 <= a)%Z -> (a < b)%Z -> exists j, (2 <= j)%Z /\ (2 ^ b = 2 ^ a * j)%Z.
Proof.
  intros Ha Hab. exists (2 ^ (b - a))%Z. split.
  - change 2%Z with (2 ^ 1)%Z at 1. apply Z.pow_le_mono_r; lia.
  - rewrite <- Z.pow_add_r by lia. f_equal. lia.
Qed.

Section RoundWithin.
Variables (lo hi : float) (k Tlo Thi : Z) (mlo mhi : positive) (elo ehi : Z).
Hypothesis Hlo : Prim2SF lo = S754_finite false mlo elo.
Hypothesis Hhi : Prim2SF hi = S754_finite false mhi ehi.
Hypothesis Helo : (-1074 < elo)%Z.
Hypothesis Hehi : (ehi < 0)%Z.
Hypothesis Hk : (0 <= k)%Z.
Hypothesis HTlo : (10 ^ k * Zpos mlo = Tlo * 2 ^ (- elo))%Z.
Hypothesis HThi : (10 ^ k * Zpos mhi = Thi * 2 ^ (- ehi))%Z.
Hypothesis HT53 : (Thi < 2 ^ 53)%Z.
Hypothesis Hcheck :
  forall t, (Tlo <= t <= Thi)%Z ->
    py_le lo (float_of_Z t / float_of_Z (10 ^ k)) = true /\
    py_le (float_of_Z t / float_of_Z (10 ^ k)) hi = true.

Lemma round_within (x : float) :
  py_le lo x = true -> py_le x hi = true ->
  py_le lo (py_round x k) = true /\ py_le (py_round x k) hi = true.
Proof.
  intros H1 H2. unfold py_le in H1, H2. rewrite leb_spec in H1, H2.
  rewrite Hlo in H1. rewrite Hhi in H2. revert H1 H2.
  pose proof (Prim2SF_valid x) as Hvx.
  pose proof (Prim2SF_valid lo) as Hvlo. rewrite Hlo in Hvlo.
  pose proof (Prim2SF_valid hi) as Hvhi. rewrite Hhi in Hvhi.
  unfold py_round.
  destruct (Prim2SF x) as [s | s | | s m e] eqn:Ex.
  - simpl. intros H. discriminate H.
  - simpl. intros H1 H2. destruct s; [discriminate H1 | discriminate H2].
  - simpl. intros H. discriminate H.
  - unfold SFleb, SFcompare. intros H1 H2.
    destruct s; [discriminate H1 |].
    assert (Hcmp1 : (elo < e)%Z \/ (elo = e /\ Zpos mlo <= Zpos m)%Z).
    { destruct (Z.compare_spec elo e) as [He | He | He]; try discriminate H1.
      - right. split; [exact He |].
        rewrite Pos.compare_cont_spec in H1. simpl in H1.
        destruct (Pos.compare_spec mlo m); try discriminate H1; lia.
      - left. exact He. }
    assert (Hcmp2 : (e < ehi)%Z \/ (e = ehi /\ Zpos m <= Zpos mhi)%Z).
    { destruct (Z.compare_spec e ehi) as [He | He | He]; try discriminate H2.
      - right. split; [exact He |].
        rewrite Pos.compare_cont_spec in H2. simpl in H2.
        destruct (Pos.compare_spec m mhi); try discriminate H2; lia.
      - left. exact He. }
    assert (He : (elo <= e <= ehi)%Z) by lia.
    pose proof (normal_mantissa _ _ _ Hvx ltac:(lia)) as Hm.
    pose proof (normal_mantissa _ _ _ Hvlo Helo) as Hml.
    pose proof (normal_mantissa _ _ _ Hvhi ltac:(lia)) as Hmh.
    unfold magnitude. destruct (Z.leb_spec 0 e) as [Hpos | _]; [lia |].
    assert (HP : (0 < 10 ^ k)%Z) by (apply Z.pow_pos_nonneg; lia).
    assert (HA : (0 < 2 ^ (- e))%Z) by (apply Z.pow_pos_nonneg; lia).
    change (2 ^ 52)%Z with 4503599627370496%Z in Hm, Hml, Hmh.
    change (2 ^ 53)%Z with 9007199254740992%Z in Hm, Hml, Hmh.
    assert (Hlow : (Tlo * 2 ^ (- e) <= 10 ^ k * Zpos m)%Z).
    { destruct Hcmp1 as [Hlt | [Heq Hle]].
      - destruct (pow2_split (- e) (- elo) ltac:(lia) ltac:(lia)) as (j & Hj & Hpow).
        rewrite Hpow in HTlo.
        assert (S1 : (10 ^ k * Zpos mlo < 10 ^ k * 9007199254740992)%Z)
          by (apply Z.mul_lt_mono_pos_l; lia).
        assert (S2 : (9007199254740992 <= Zpos m * j)%Z).
        { change 9007199254740992%Z with (4503599627370496 * 2)%Z.
          apply Z.mul_le_mono_nonneg; lia. }
        assert (S3 : (10 ^ k * 9007199254740992 <= 10 ^ k * (Zpos m * j))%Z)
          by (apply Z.mul_le_mono_nonneg_l; lia).
        assert (S4 : (Tlo * 2 ^ (- e) * j < 10 ^ k * Zpos m * j)%Z).
        { replace (Tlo * 2 ^ (- e) * j)%Z with (Tlo * (2 ^ (- e) * j))%Z by ring.
          replace (10 ^ k * Zpos m * j)%Z with (10 ^ k * (Zpos m * j))%Z by ring.
          lia. }
        apply Z.mul_lt_mono_pos_r in S4; lia.
      - subst e. rewrite <- HTlo. apply Z.mul_le_mono_nonneg_l; lia. }
    assert (Hupp : (10 ^ k * Zpos m <= Thi * 2 ^ (- e))%Z).
    { destruct Hcmp2 as [Hlt | [Heq Hle]].
      - destruct (pow2_split (- ehi) (- e) ltac:(lia) ltac:(lia)) as (j & Hj & Hpow).
        rewrite Hpow.
        replace (Thi * (2 ^ (- ehi) * j))%Z with (10 ^ k * (Zpos mhi * j))%Z
          by (rewrite Z.mul_assoc, HThi; ring).
        apply Z.mul_le_mono_nonneg_l; [lia |].
        assert (S2 : (9007199254740992 <= Zpos mhi * j)%Z).
        { change 9007199254740992%Z with (4503599627370496 * 2)%Z.
          apply Z.mul_le_mono_nonneg; lia. }
        lia.
      - subst e. rewrite <- HThi. apply Z.mul_le_mono_nonneg_l; lia. }
    pose proof (round_half_even_between _ _ _ _ HA Hlow Hupp) as Ht.
    destruct (Z.ltb_spec (round_half_even (10 ^ k * Zpos m) (2 ^ (- e))) (2 ^ 53))
      as [_ | Hbig]; [| lia].
    apply Hcheck. exact Ht.
Qed.
End RoundWithin.

Lemma in_Z_range (a t : Z) (len : nat) :
  (a <= t < a + Z.of_nat len)%Z -> In t (Z_range a len).
Proof.
  intros H. unfold Z_range. apply in_map_iff.
  exists (Z.to_nat (t - a)). split; [lia |]. apply in_seq. lia.
Qed.

Lemma range_check (lo hi : float) (k a : Z) (len : nat) :
  forallb (rounds_within lo hi k) (Z_range a len) = true ->
  forall t, (a <= t <= a + Z.of_nat len - 1)%Z ->
    py_le lo (float_of_Z t / float_of_Z (10 ^ k)) = true /\
    py_le (float_of_Z t / float_of_Z (10 ^ k)) hi = true.
Proof.
  intros Hall t Ht. rewrite forallb_forall in Hall.
  specialize (Hall t (in_Z_range a t len ltac:(lia))).
  unfold rounds_within in Hall. now apply andb_true_iff in Hall.
Qed.

Lemma round_hr (x : float) :
  py_le 40 x = true -> py_le x 190 = true ->
  py_le 40 (py_round x 1) = true /\ py_le (py_round x 1) 190 = true.
Proof.
  eapply (round_within 40 190 1 400 1900); try reflexivity; try lia.
  apply (range_check 40 190 1 400 1501). vm_compute. reflexivity.
Qed.

Lemma round_sys (x : float) :
  py_le 90 x = true -> py_le x 220 = true ->
  py_le 90 (py_round x 1) = true /\ py_le (py_round x 1) 220 = true.
Proof.
  eapply (round_within 90 220 1 900 2200); try reflexivity; try lia.
  apply (range_check 90 220 1 900 1301). vm_compute. reflexivity.
Qed.

Lemma round_dia (x : float) :
  py_le 50 x = true -> py_le x 140 = true ->
  py_le 50 (py_round x 1) = true /\ py_le (py_round x 1) 140 = true.
Proof.
  eapply (round_within 50 140 1 500 1400); try reflexivity; try lia.
  apply (range_check 50 140 1 500 901). vm_compute. reflexivity.
Qed.

Lemma round_spo2 (x : float) :
  py_le 75 x = true -> py_le x 100 = true ->
  py_le 75 (py_round x 1) = true /\ py_le (py_round x 1) 100 = true.
Proof.
  eapply (round_within 75 100 1 750 1000); try reflexivity; try lia.
  apply (range_check 75 100 1 750 251). vm_compute. reflexivity.
Qed.

Lemma round_temp (x : float) :
  py_le 34.0 x = true -> py_le x 41.0 = true ->
  py_le 34.0 (py_round x 2) = true /\ py_le (py_round x 2) 41.0 = true.
Proof.
  eapply (round_within 34 41 2 3400 4100); try reflexivity; try lia.
  apply (range_check 34 41 2 3400 701). vm_compute. reflexivity.
Qed.

Lemma rounded_state_in_range (st : SimState) :
  state_in_range st -> vitals_in_range (rounded_state st).
Proof.
  intros ((H1 & H2) & (H3 & H4) & (H5 & H6) & (H7 & H8) & (H9 & H10)).
  unfold vitals_in_range, rounded_state.
  cbn [heart_rate bp_systolic bp_diastolic oxygen_saturation temperature].
  split; [now apply round_hr |]. split; [now apply round_sys |].
  split; [now apply round_dia |]. split; [now apply round_spo2 |].
  now apply round_temp.
Qed.

(** X26.  Whatever the profile, the state passed in and the random draws,
    the vitals [generate_vitals] returns lie within the clamp ranges, after
    rounding included: heart rate in [40, 190], systolic in [90, 220],
    diastolic in [50, 140], saturation in [75, 100] and temperature in
    [34, 41]. *)
Theorem X26_simulated_vitals_in_range (profile : string) (state : option SimState)
    (src : nat -> float) (n : nat) :
  let '(vitals, st', n') := generate_vitals profile state src n in
  vitals_in_range vitals.
Proof.
  destruct (generate_vitals_shape profile state src n)
    as (hr & sys & dia & spo2 & temp & n' & Hg & _).
  cbv zeta in Hg. rewrite Hg.
  apply rounded_state_in_range.
  unfold state_in_range. cbn [sim_hr sim_sys sim_dia sim_spo2 sim_temp].
  repeat split; apply _clamp_range; reflexivity.
Qed.
